(** * dso-spreadsheet-sanitizer: a shallow embedding of [main.py]

    The program rewrites a spreadsheet file into a sanitized copy.  For the
    two ZIP families (.xlsx, .ods) it streams every archive member into a new
    archive, dropping the macro binary and rewriting the sheet descriptor;
    for .csv it drops the rows with a missing value.

    The embedding follows [main.py] function by function.

    - Python exceptions are values of an error monad; a [try]/[except] is a
      [match] on the result.
    - The file system is a finite map from paths to files; a file is either
      a well-formed ZIP archive or raw bytes.  An archive is given by what
      [ZipFile(path, 'r')] finds in it: the member list with, for each
      member, the [ZipInfo] read back from the directory and the payload
      [read] returns.  Every member can be read and every path can be
      created and written.
    - A path is the resolved name of a file: two strings name one file only
      when they are equal.
    - The library codecs the program calls, [ET.fromstring]/[ET.tostring]
      and [pd.read_csv]/[DataFrame.to_csv], are section variables; what the
      program does with their results is what is verified.  The parts of
      [xml.etree.ElementTree], [zipfile] and [os.path] whose behaviour the
      control flow depends on are written out.
    - The clock [zipfile] reads when it stamps a new member is an argument
      of each run; it is taken within the years a ZIP directory can hold
      (1980 to 2107), outside of which [zipfile] raises.
    - Log lines are not modelled. *)

From Stdlib Require Import ZArith Lia.
From Stdlib Require Import Strings.Ascii Strings.String Strings.Byte.
From stdpp Require Import base option list strings gmap.

Local Open Scope string_scope.
Local Open Scope list_scope.
Set Warnings "-register-all".

(** ** Exceptions *)

Inductive exn : Type :=
  | FileNotFoundError
  | BadZipFile
  | ParseError
  | AttributeError
  | TypeError
  | EmptyDataError
  | ParserError
  | OtherError.

Inductive result (A : Type) : Type :=
  | Ok (a : A)
  | Raise (e : exn).
Arguments Ok {A} a.
Arguments Raise {A} e.

#[global] Instance result_ret : MRet result := fun _ a => Ok a.
#[global] Instance result_bind : MBind result :=
  fun _ _ k m => match m with Ok a => k a | Raise e => Raise e end.

Definition is_ok {A} (r : result A) : bool :=
  match r with Ok _ => true | Raise _ => false end.

Definition bytes : Type := list byte.

(** ** [xml.etree.ElementTree] elements *)

Module ET.

(** An [Element]: tag in Clark notation ([{uri}local]), the attribute
    dictionary in document order, text, tail and the child elements. *)
Inductive Element : Type :=
  | Elem (tag : string) (attrib : list (string * string))
         (text tail : option string) (children : list Element).

Definition tag (e : Element) : string :=
  match e with Elem t _ _ _ _ => t end.
Definition attrib (e : Element) : list (string * string) :=
  match e with Elem _ a _ _ _ => a end.
Definition children (e : Element) : list Element :=
  match e with Elem _ _ _ _ c => c end.

(** [dict.get(key)] on the attribute dictionary. *)
Fixpoint assoc (key : string) (a : list (string * string)) : option string :=
  match a with
  | [] => None
  | (k, v) :: a' => if String.eqb k key then Some v else assoc key a'
  end.

(** [Element.get(key)]: the attribute value, [None] when absent. *)
Definition get (e : Element) (key : string) : option string :=
  assoc key (attrib e).

(** [Element.iter()]: the element and all its descendants, document order. *)
Fixpoint iter (e : Element) : list Element :=
  match e with
  | Elem _ _ _ _ cs => e :: flat_map iter cs
  end.

(** [Element.findall('.//p:local', {p: uri})]: every descendant (the
    context element itself excluded) whose tag is [{uri}local]. *)
Definition findall_descendants (uri local : string) (e : Element)
  : list Element :=
  filter (fun x => tag x = "{" +:+ uri +:+ "}" +:+ local)
         (flat_map iter (children e)).

(** [xml.etree.ElementTree.Element] has no [getparent] method (it is an
    lxml extension): evaluating [e.getparent] raises AttributeError, so
    nothing is ever returned to the caller. *)
Definition getparent (e : Element) : result Empty_set :=
  Raise AttributeError.

(** [Element.get(key, default=None)] takes no [namespaces] keyword:
    calling it with one raises TypeError before any lookup is made. *)
Definition get_namespaces_kw (e : Element) (key : string)
  (default : option string) : result (option string) :=
  Raise TypeError.

End ET.

(** ** Hidden-node removal, as written in the two [try] blocks *)

Module Pruner.
Import ET.

Definition xlsx_ns : string :=
  "http://schemas.openxmlformats.org/spreadsheetml/2006/main".
Definition ods_table_ns : string :=
  "urn:oasis:names:tc:opendocument:xmlns:table:1.0".

(** [sheet.get('state') == 'hidden' or sheet.get('state') == 'veryHidden'] *)
Definition is_hidden_state (state : option string) : bool :=
  bool_decide (state = Some "hidden") || bool_decide (state = Some "veryHidden").

(** First loop of [sanitize_xlsx]: the [sheetId] of every hidden sheet. *)
Definition sheets_to_remove (sheets : list Element) : list (option string) :=
  map (fun sheet => get sheet "sheetId")
      (List.filter (fun sheet => is_hidden_state (get sheet "state")) sheets).

(** Second loop of [sanitize_xlsx]: [sheet.getparent().remove(sheet)] for
    every sheet whose id was collected.  [getparent] raises, so the [remove]
    that would follow is never reached. *)
Fixpoint remove_sheets (sheets : list Element) (ids : list (option string))
  (tree : Element) : result Element :=
  match sheets with
  | [] => mret tree
  | sheet :: rest =>
      if bool_decide (get sheet "sheetId" ∈ ids)
      then parent ← getparent sheet; match parent : Empty_set with end
      else remove_sheets rest ids tree
  end.

Definition prune_workbook (tree : Element) : result Element :=
  let sheets := findall_descendants xlsx_ns "sheet" tree in
  remove_sheets sheets (sheets_to_remove sheets) tree.

(** First loop of [sanitize_ods]: the tables whose [table:display] is
    ['false'].  The lookup is the keyword call that raises. *)
Fixpoint tables_to_remove (tables : list Element) : result (list Element) :=
  match tables with
  | [] => mret []
  | table :: rest =>
      display ← get_namespaces_kw table "table:display" (Some "true");
      here ← (if bool_decide (display = Some "false")
              then (table_name ← get_namespaces_kw table "table:name" None;
                    mret [table])
              else mret []) : result (list Element);
      more ← tables_to_remove rest;
      mret (here ++ more)
  end.

(** Second loop of [sanitize_ods]: [table.getparent().remove(table)]. *)
Definition remove_tables (hidden : list Element) (tree : Element)
  : result Element :=
  match hidden with
  | [] => mret tree
  | table :: _ =>
      parent ← getparent table; match parent : Empty_set with end
  end.

Definition prune_content (tree : Element) : result Element :=
  let tables := findall_descendants ods_table_ns "table" tree in
  hidden ← tables_to_remove tables;
  remove_tables hidden tree.

End Pruner.

(** ** ZIP archives *)

Module Zip.

Definition ZIP_STORED : Z := 0.
Definition ZIP_DEFLATED : Z := 8.

(** (year, month, day), (hour, minute, second) *)
Definition DateTime : Type := (Z * Z * Z) * (Z * Z * Z).

(** The member metadata a [ZipInfo] carries from one archive to the next. *)
Record ZipInfo : Type := mkZipInfo {
  filename : string;
  date_time : DateTime;
  compress_type : Z;
  external_attr : Z;
  comment : bytes
}.

Record Entry : Type := mkEntry { info : ZipInfo; data : bytes }.

(** An archive is its member list, in central-directory order. *)
Definition Container : Type := list Entry.

Definition infolist (c : Container) : list ZipInfo := map info c.
Definition namelist (c : Container) : list string :=
  map (fun e => filename (info e)) c.

(** [ZipFile.read(name)] resolves the name through [NameToInfo], a dict
    filled in directory order: among members of one name the last wins. *)
Fixpoint read (c : Container) (name : string) : result bytes :=
  match c with
  | [] => Raise OtherError
  | e :: c' =>
      match read c' name with
      | Ok b => Ok b
      | Raise _ =>
          if String.eqb (filename (info e)) name then Ok (data e)
          else Raise OtherError
      end
  end.

Definition ends_with_slash (name : string) : bool :=
  match last (String.list_ascii_of_string name) with
  | Some c => bool_decide (c = "/"%char)
  | None => false
  end.

(** The [ZipInfo] that [writestr(arcname, data)] builds when it is given a
    name and not a [ZipInfo]: the current time, the archive's compression
    and default permissions.  ([ZipInfo] raises for a year before 1980 and
    the header cannot hold one after 2107; the clock is taken in between.) *)
Definition fresh_info (now : DateTime) (arcname : string) : ZipInfo :=
  {| filename := arcname;
     date_time := now;
     compress_type := ZIP_DEFLATED;
     external_attr :=
       if ends_with_slash arcname
       then Z.lor (Z.shiftl 16893 16) 16
       else Z.shiftl 384 16;
     comment := [] |}.

(** The directory stores seconds in two-second units: [FileHeader] writes
    [second // 2] and the reader returns that times 2. *)
Definition dos_time (t : DateTime) : DateTime :=
  let '(date, (hour, minute, second)) := t in
  (date, (hour, minute, 2 * (second / 2)))%Z.

(** The [ZipInfo] read back for a member that was written with [zinfo]:
    [_open_to_write] replaces an [external_attr] of 0 by [0o600 << 16]
    before the header is written, and the timestamp comes back at the
    directory's resolution. *)
Definition stored (zinfo : ZipInfo) : ZipInfo :=
  {| filename := filename zinfo;
     date_time := dos_time (date_time zinfo);
     compress_type := compress_type zinfo;
     external_attr :=
       if bool_decide (external_attr zinfo = 0%Z)
       then Z.shiftl 384 16
       else external_attr zinfo;
     comment := comment zinfo |}.

(** [zout.writestr(arcname, data)] *)
Definition writestr_name (now : DateTime) (zout : Container)
  (arcname : string) (content : bytes) : Container :=
  zout ++ [ {| info := stored (fresh_info now arcname); data := content |} ].

(** [zout.writestr(zinfo, data)] *)
Definition writestr_info (zout : Container) (zinfo : ZipInfo)
  (content : bytes) : Container :=
  zout ++ [ {| info := stored zinfo; data := content |} ].

End Zip.

(** ** [os.path.splitext] and [str.lower] on path strings

    A path is its byte string; every byte of a multi-byte UTF-8 sequence is
    at least 128, so no such byte is ['.'], ['/'] or an ASCII letter. *)

Module Path.

(** [s.rfind(c)] counted from index [i] of the first character; -1 when
    [c] does not occur. *)
Fixpoint rfind_from (c : ascii) (s : list ascii) (i : Z) : Z :=
  match s with
  | [] => -1
  | x :: s' =>
      let r := rfind_from c s' (i + 1) in
      if (0 <=? r)%Z then r else if bool_decide (x = c) then i else -1
  end.

Definition rfind (c : ascii) (s : list ascii) : Z := rfind_from c s 0.

(** The [while filenameIndex < dotIndex] loop of [genericpath._splitext]:
    is there a character other than ['.'] before the last dot? *)
Fixpoint has_non_dot (seg : list ascii) : bool :=
  match seg with
  | [] => false
  | c :: seg' => if bool_decide (c ≠ "."%char) then true else has_non_dot seg'
  end.

Definition splitext (p : string) : string * string :=
  let s := String.list_ascii_of_string p in
  let sepIndex := rfind "/"%char s in
  let dotIndex := rfind "."%char s in
  if (sepIndex <? dotIndex)%Z
  then
    let filenameIndex := Z.to_nat (sepIndex + 1) in
    let dot := Z.to_nat dotIndex in
    if has_non_dot (take (dot - filenameIndex) (drop filenameIndex s))
    then (String.string_of_list_ascii (take dot s),
          String.string_of_list_ascii (drop dot s))
    else (p, "")
  else (p, "").

Definition lower_char (c : ascii) : ascii :=
  let n := nat_of_ascii c in
  if (65 <=? n)%nat && (n <=? 90)%nat then ascii_of_nat (n + 32) else c.

Definition lower (s : string) : string :=
  String.string_of_list_ascii (map lower_char (String.list_ascii_of_string s)).

End Path.

(** ** [pandas] data frames *)

Module Frame.
Section Frame.
Context {value : Type}.

(** A frame read from CSV text: the header and the data rows, a cell being
    [None] where pandas holds a missing value (NaN). *)
Record DataFrame : Type := mkDataFrame {
  columns : list string;
  rows : list (list (option value))
}.

Definition complete (row : list (option value)) : bool :=
  forallb (fun cell => bool_decide (is_Some cell)) row.

(** [df.dropna()]: axis 0, how='any' -- drop every row with a missing cell. *)
Definition dropna (df : DataFrame) : DataFrame :=
  {| columns := columns df; rows := List.filter complete (rows df) |}.

End Frame.
Arguments DataFrame value : clear implicits.
End Frame.

(** ** The file system *)

Inductive File : Type :=
  | ZipArchive (c : Zip.Container)
  | Raw (b : bytes).

(** Command-line arguments, as parsed by [setup_argparse]. *)
Record Args : Type := mkArgs {
  input_file : string;
  output_file : string;
  remove_macros : bool;
  remove_hidden_sheets : bool;
  overwrite : bool
}.

(** ** The three pipelines and the dispatcher *)

Section Sanitizer.
Import ET Zip.

(** [ET.fromstring] and [ET.tostring(tree, encoding='utf8')].  The program
    decodes the serialized bytes to [str] and [writestr] encodes them back
    as UTF-8, which gives the same bytes. *)
Variable fromstring : bytes → result Element.
Variable tostring : Element → bytes.

(** [pd.read_csv(path)] applied to the bytes at [path], and the bytes
    [df.to_csv(path, index=False)] writes: both take the path, from whose
    suffix pandas infers a compression.  [archive_bytes] is what an archive
    occupies on disk (what [pd.read_csv] sees when it is pointed at one). *)
Context {value : Type}.
Variable read_csv : string → bytes → result (Frame.DataFrame value).
Variable to_csv : string → Frame.DataFrame value → bytes.
Variable archive_bytes : Container → bytes.

(** [os.path.exists] *)
Definition exists_path (fs : gmap string File) (path : string) : bool :=
  bool_decide (is_Some (fs !! path)).

(** [zipfile.ZipFile(path, 'r')] *)
Definition open_read (fs : gmap string File) (path : string)
  : result Container :=
  match fs !! path with
  | None => Raise FileNotFoundError
  | Some (Raw _) => Raise BadZipFile
  | Some (ZipArchive c) => Ok c
  end.

(** [zin.read(filename)] once the destination has been opened.  Opening
    the destination with mode ['w'] truncates that file, so when both paths
    name one file the member data is gone and the read fails.  Paths are
    resolved names, so they name one file exactly when they are equal. *)
Definition zin_read (input output : string) (zin : Container)
  (filename : string) : result bytes :=
  if bool_decide (input = output) then Raise BadZipFile else read zin filename.

(** The body of the first [try] of [sanitize_xlsx]: parse, prune, serialize. *)
Definition rewrite_workbook (content : bytes) : result bytes :=
  tree ← fromstring content;
  tree' ← Pruner.prune_workbook tree;
  mret (tostring tree').

(** The body of the first [try] of [sanitize_ods]. *)
Definition rewrite_content (content : bytes) : result bytes :=
  tree ← fromstring content;
  tree' ← Pruner.prune_content tree;
  mret (tostring tree').

(** One iteration of the [for item in zin.infolist()] loop of
    [sanitize_xlsx]; [rd] is [zin.read]. *)
Definition xlsx_item (remove_macros remove_hidden_sheets : bool)
  (now : DateTime) (rd : string → result bytes)
  (zout : Container) (item : ZipInfo) : result Container :=
  let filename := filename item in
  if remove_macros && bool_decide (filename = "xl/vbaProject.bin")
  then mret zout
  else if remove_hidden_sheets && bool_decide (filename = "xl/workbook.xml")
  then
    content ← rd filename;
    match rewrite_workbook content with
    | Ok content' => mret (writestr_name now zout filename content')
    | Raise _ =>
        original ← rd filename;
        mret (writestr_name now zout filename original)
    end
  else
    buffer ← rd filename;
    mret (writestr_info zout item buffer).

(** One iteration of the loop of [sanitize_ods]. *)
Definition ods_item (remove_hidden_sheets : bool)
  (now : DateTime) (rd : string → result bytes)
  (zout : Container) (item : ZipInfo) : result Container :=
  let filename := filename item in
  if remove_hidden_sheets && bool_decide (filename = "content.xml")
  then
    content ← rd filename;
    match rewrite_content content with
    | Ok content' => mret (writestr_name now zout filename content')
    | Raise _ =>
        original ← rd filename;
        mret (writestr_name now zout filename original)
    end
  else
    buffer ← rd filename;
    mret (writestr_info zout item buffer).

(** The loop itself.  An exception leaves the [with] blocks, which close
    the destination with the members written so far. *)
Fixpoint transcode (step : Container → ZipInfo → result Container)
  (items : list ZipInfo) (zout : Container) : Container * option exn :=
  match items with
  | [] => (zout, None)
  | item :: rest =>
      match step zout item with
      | Ok zout' => transcode step rest zout'
      | Raise e => (zout, Some e)
      end
  end.

Definition sanitize_xlsx (fs : gmap string File) (input output : string)
  (remove_macros remove_hidden_sheets overwrite : bool) (now : DateTime)
  : bool * gmap string File :=
  if exists_path fs output && negb overwrite then (false, fs)
  else
    match open_read fs input with
    | Raise _ => (false, fs)
    | Ok zin =>
        let fs' := <[output := ZipArchive []]> fs in
        let rd := zin_read input output zin in
        match transcode (xlsx_item remove_macros remove_hidden_sheets now rd)
                        (infolist zin) [] with
        | (zout, None) => (true, <[output := ZipArchive zout]> fs')
        | (zout, Some _) => (false, <[output := ZipArchive zout]> fs')
        end
    end.

(** [remove_macros] only triggers a warning for this family. *)
Definition sanitize_ods (fs : gmap string File) (input output : string)
  (remove_macros remove_hidden_sheets overwrite : bool) (now : DateTime)
  : bool * gmap string File :=
  if exists_path fs output && negb overwrite then (false, fs)
  else
    match open_read fs input with
    | Raise _ => (false, fs)
    | Ok zin =>
        let fs' := <[output := ZipArchive []]> fs in
        let rd := zin_read input output zin in
        match transcode (ods_item remove_hidden_sheets now rd)
                        (infolist zin) [] with
        | (zout, None) => (true, <[output := ZipArchive zout]> fs')
        | (zout, Some _) => (false, <[output := ZipArchive zout]> fs')
        end
    end.

Definition file_bytes (f : File) : bytes :=
  match f with
  | Raw b => b
  | ZipArchive c => archive_bytes c
  end.

Definition sanitize_csv (fs : gmap string File) (input output : string)
  (overwrite : bool) : bool * gmap string File :=
  if exists_path fs output && negb overwrite then (false, fs)
  else
    match fs !! input with
    | None => (false, fs)
    | Some f =>
        match read_csv input (file_bytes f) with
        | Raise _ => (false, fs)
        | Ok df =>
            (true, <[output := Raw (to_csv output (Frame.dropna df))]> fs)
        end
    end.

(** *** The loop seen member by member

    What one iteration appends to the destination once [zin.read] has
    returned [b]: nothing, a rewritten member under a fresh [ZipInfo], or
    the member as it was. *)
Definition xlsx_emit (remove_macros remove_hidden_sheets : bool)
  (now : DateTime) (item : ZipInfo) (b : bytes) : list Entry :=
  if remove_macros && bool_decide (filename item = "xl/vbaProject.bin")
  then []
  else if remove_hidden_sheets
          && bool_decide (filename item = "xl/workbook.xml")
  then [ {| info := stored (fresh_info now (filename item));
            data := match rewrite_workbook b with
                    | Ok content' => content'
                    | Raise _ => b
                    end |} ]
  else [ {| info := stored item; data := b |} ].

Definition ods_emit (remove_hidden_sheets : bool)
  (now : DateTime) (item : ZipInfo) (b : bytes) : list Entry :=
  if remove_hidden_sheets && bool_decide (filename item = "content.xml")
  then [ {| info := stored (fresh_info now (filename item));
            data := match rewrite_content b with
                    | Ok content' => content'
                    | Raise _ => b
                    end |} ]
  else [ {| info := stored item; data := b |} ].

(** The bytes a read returned, for reads known to succeed. *)
Definition fetched (rd : string → result bytes) (name : string) : bytes :=
  match rd name with Ok b => b | Raise _ => [] end.

Definition xlsx_output (remove_macros remove_hidden_sheets : bool)
  (now : DateTime) (zin : Container) : Container :=
  flat_map (fun item =>
              xlsx_emit remove_macros remove_hidden_sheets now item
                        (fetched (read zin) (filename item)))
           (infolist zin).

Definition ods_output (remove_hidden_sheets : bool)
  (now : DateTime) (zin : Container) : Container :=
  flat_map (fun item =>
              ods_emit remove_hidden_sheets now item
                       (fetched (read zin) (filename item)))
           (infolist zin).

(** [main]: the exit status passed to [sys.exit] and the file system left
    behind. *)
Definition main (fs : gmap string File) (args : Args) (now : DateTime)
  : Z * gmap string File :=
  let file_extension := Path.lower (snd (Path.splitext (input_file args))) in
  let exit_of (r : bool * gmap string File) :=
    ((if fst r then 0 else 1)%Z, snd r) in
  if bool_decide (file_extension = ".xlsx") then
    exit_of (sanitize_xlsx fs (input_file args) (output_file args)
               (remove_macros args) (remove_hidden_sheets args)
               (overwrite args) now)
  else if bool_decide (file_extension = ".ods") then
    exit_of (sanitize_ods fs (input_file args) (output_file args)
               (remove_macros args) (remove_hidden_sheets args)
               (overwrite args) now)
  else if bool_decide (file_extension = ".csv") then
    exit_of (sanitize_csv fs (input_file args) (output_file args)
               (overwrite args))
  else (1%Z, fs).

(** *** The two archive families side by side

    [main] selects the pipeline from the extension; statements that hold
    for both pipelines are indexed by the family. *)
Inductive Family : Type := FamilyA | FamilyB.

Definition extension (fam : Family) : string :=
  match fam with FamilyA => ".xlsx" | FamilyB => ".ods" end.

(** The member that hidden-sheet removal rewrites. *)
Definition descriptor_name (fam : Family) : string :=
  match fam with FamilyA => "xl/workbook.xml" | FamilyB => "content.xml" end.

(** The member that [remove_macros] drops: only family A has one. *)
Definition dropped (fam : Family) (remove_macros : bool) (name : string)
  : bool :=
  match fam with
  | FamilyA => remove_macros && bool_decide (name = "xl/vbaProject.bin")
  | FamilyB => false
  end.

(** The names a pipeline may treat specially, whatever the options. *)
Definition trigger (fam : Family) (name : string) : bool :=
  match fam with
  | FamilyA => bool_decide (name = "xl/vbaProject.bin")
               || bool_decide (name = "xl/workbook.xml")
  | FamilyB => bool_decide (name = "content.xml")
  end.

Definition sanitize (fam : Family) (fs : gmap string File)
  (input output : string)
  (remove_macros remove_hidden_sheets overwrite : bool) (now : DateTime)
  : bool * gmap string File :=
  match fam with
  | FamilyA => sanitize_xlsx fs input output
                 remove_macros remove_hidden_sheets overwrite now
  | FamilyB => sanitize_ods fs input output
                 remove_macros remove_hidden_sheets overwrite now
  end.

Definition emit (fam : Family) (remove_macros remove_hidden_sheets : bool)
  (now : DateTime) (item : ZipInfo) (b : bytes) : list Entry :=
  match fam with
  | FamilyA => xlsx_emit remove_macros remove_hidden_sheets now item b
  | FamilyB => ods_emit remove_hidden_sheets now item b
  end.

Definition rewrite_descriptor (fam : Family) (content : bytes)
  : result bytes :=
  match fam with
  | FamilyA => rewrite_workbook content
  | FamilyB => rewrite_content content
  end.

End Sanitizer.

(** ** Observations on archives used in the statements *)

Module Obs.
Import Zip.

(** Member names with their payloads, in order: an archive without its
    per-member metadata. *)
Definition contents (c : Container) : list (string * bytes) :=
  map (fun e => (filename (info e), data e)) c.

(** A member as it is found in the destination after a verbatim copy. *)
Definition copied (e : Entry) : Entry :=
  {| info := stored (info e); data := data e |}.

(** Member names are unique (the data model's container invariant). *)
Definition unique_names (c : Container) : Prop := NoDup (namelist c).

(** The destination may be written: it is absent or [--overwrite] is set. *)
Definition writable (fs : gmap string File) (output : string)
  (overwrite : bool) : Prop :=
  fs !! output = None ∨ overwrite = true.

(** An iteration appends at most one member, under the name it was given. *)
Definition keeps_name (emit : ZipInfo → bytes → list Entry) : Prop :=
  ∀ item b, namelist (emit item b) `sublist_of` [filename item].

(** The serialization of what [b] parses to parses back to the same tree. *)
Definition reparses_on (fromstring : bytes → result ET.Element)
  (tostring : ET.Element → bytes) (b : bytes) : Prop :=
  ∀ t, fromstring b = Ok t → fromstring (tostring t) = Ok t.



(** No member carries the macro binary's name. *)
Definition macro_free (c : Container) : Prop :=
  "xl/vbaProject.bin" ∉ namelist c.

(** [tostring] output parses back to the tree it came from (a property of
    the XML library, assumed where a second run reads a first run's output). *)
Definition reparses (fromstring : bytes → result ET.Element)
  (tostring : ET.Element → bytes) : Prop :=
  ∀ b t, fromstring b = Ok t → fromstring (tostring t) = Ok t.

End Obs.

(** ** Sample documents, archives and a disk

    Concrete inputs on which the statements below are evaluated.  The
    stand-ins for the library parsers know the sample documents only:
    [fromstring] looks a byte string up in a table, [tostring] prints tag
    and attributes. *)

Module Fixture.
Import ET Zip.

#[local] Instance byte_eq_dec : EqDecision byte := Byte.byte_eq_dec.

Definition text (s : string) : bytes := String.list_byte_of_string s.

Definition clark (uri local : string) : string :=
  "{" +:+ uri +:+ "}" +:+ local.

Definition office_ns : string :=
  "urn:oasis:names:tc:opendocument:xmlns:office:1.0".

Definition sheet (name id : string) (state : option string) : Element :=
  Elem (clark Pruner.xlsx_ns "sheet")
       ([("name", name); ("sheetId", id)]
        ++ match state with Some s => [("state", s)] | None => [] end)
       None None [].

Definition workbook_of (sheets : list Element) : Element :=
  Elem (clark Pruner.xlsx_ns "workbook") [] None None
       [Elem (clark Pruner.xlsx_ns "sheets") [] None None sheets].

(** Three sheets, the second one hidden. *)
Definition hidden_workbook : Element :=
  workbook_of [sheet "Data" "1" None;
               sheet "Secret" "2" (Some "hidden");
               sheet "Summary" "3" None].

Definition hidden_workbook_xml : bytes :=
  text ("<workbook xmlns='http://schemas.openxmlformats.org/spreadsheetml/2006/main'><sheets>"
        +:+ "<sheet name='Data' sheetId='1'/>"
        +:+ "<sheet name='Secret' sheetId='2' state='hidden'/>"
        +:+ "<sheet name='Summary' sheetId='3'/>"
        +:+ "</sheets></workbook>").

(** Two sheets, both visible. *)
Definition visible_workbook : Element :=
  workbook_of [sheet "Data" "1" None; sheet "Summary" "3" None].

Definition visible_workbook_xml : bytes :=
  text ("<workbook xmlns='http://schemas.openxmlformats.org/spreadsheetml/2006/main'><sheets>"
        +:+ "<sheet name='Data' sheetId='1'/>"
        +:+ "<sheet name='Summary' sheetId='3'/>"
        +:+ "</sheets></workbook>").

Definition table (name : string) (display : option string) : Element :=
  Elem (clark Pruner.ods_table_ns "table")
       ([(clark Pruner.ods_table_ns "name", name)]
        ++ match display with
           | Some d => [(clark Pruner.ods_table_ns "display", d)]
           | None => []
           end)
       None None [].

(** Two tables, the second one with [table:display='false']. *)
Definition hidden_content : Element :=
  Elem (clark office_ns "document-content") [] None None
       [Elem (clark office_ns "body") [] None None
             [Elem (clark office_ns "spreadsheet") [] None None
                   [table "Sheet1" None; table "Hidden" (Some "false")]]].

Definition hidden_content_xml : bytes :=
  text ("<office:document-content"
        +:+ " xmlns:office='urn:oasis:names:tc:opendocument:xmlns:office:1.0'"
        +:+ " xmlns:table='urn:oasis:names:tc:opendocument:xmlns:table:1.0'>"
        +:+ "<office:body><office:spreadsheet>"
        +:+ "<table:table table:name='Sheet1'/>"
        +:+ "<table:table table:name='Hidden' table:display='false'/>"
        +:+ "</office:spreadsheet></office:body></office:document-content>").

Definition print_attribute (kv : string * string) : string :=
  " " +:+ kv.1 +:+ "='" +:+ kv.2 +:+ "'".

Fixpoint print (e : Element) : string :=
  match e with
  | Elem t a _ _ cs =>
      "<" +:+ t +:+ String.concat "" (map print_attribute a) +:+ ">"
      +:+ String.concat "" (map print cs) +:+ "</" +:+ t +:+ ">"
  end.

Definition tostring (e : Element) : bytes := text (print e).

Definition documents : list (bytes * Element) :=
  [(hidden_workbook_xml, hidden_workbook);
   (visible_workbook_xml, visible_workbook);
   (hidden_content_xml, hidden_content);
   (tostring hidden_workbook, hidden_workbook);
   (tostring visible_workbook, visible_workbook);
   (tostring hidden_content, hidden_content)].

Fixpoint lookup_document (b : bytes) (docs : list (bytes * Element))
  : result Element :=
  match docs with
  | [] => Raise ParseError
  | (b', t) :: docs' =>
      if bool_decide (b = b') then Ok t else lookup_document b docs'
  end.

Definition fromstring (b : bytes) : result Element :=
  lookup_document b documents.

Definition clock : DateTime := ((2024, 5, 17), (9, 30, 0))%Z.
Definition stamp : DateTime := ((2019, 12, 31), (23, 59, 58))%Z.

Definition member (name : string) (payload : bytes) : Entry :=
  {| info := {| filename := name; date_time := stamp;
                compress_type := ZIP_STORED;
                external_attr := Z.shiftl 420 16; comment := [] |};
     data := payload |}.

Definition book (workbook_xml : bytes) : Container :=
  [member "[Content_Types].xml" (text "<Types/>");
   member "xl/workbook.xml" workbook_xml;
   member "xl/vbaProject.bin" [x00; x01; xfe; xff];
   member "xl/worksheets/sheet1.xml" (text "<worksheet/>")].

Definition document : Container :=
  [member "mimetype" (text "application/vnd.oasis.opendocument.spreadsheet");
   member "content.xml" hidden_content_xml;
   member "styles.xml" (text "<styles/>")].

Definition csv_text : bytes :=
  text "id,name,score
1,ann,10
2,bob,
3,cyd,30
4,dee,40
5,eve,50
".

Definition csv_frame : Frame.DataFrame string :=
  {| Frame.columns := ["id"; "name"; "score"];
     Frame.rows :=
       [[Some "1"; Some "ann"; Some "10"];
        [Some "2"; Some "bob"; None];
        [Some "3"; Some "cyd"; Some "30"];
        [Some "4"; Some "dee"; Some "40"];
        [Some "5"; Some "eve"; Some "50"]] |}.

Definition read_csv (path : string) (b : bytes)
  : result (Frame.DataFrame string) :=
  if bool_decide (b = csv_text) then Ok csv_frame else Raise ParserError.

Definition newline : string := String (ascii_of_nat 10) "".

Definition to_csv (path : string) (df : Frame.DataFrame string) : bytes :=
  text (String.concat ""
          (map (fun line => String.concat "," line +:+ newline)
               (Frame.columns df
                :: map (map (default "")) (Frame.rows df)))).

Definition archive_bytes (c : Container) : bytes := concat (map data c).

Definition disk : gmap string File :=
  {[ "book.xlsx" := ZipArchive (book hidden_workbook_xml);
     "plain.xlsx" := ZipArchive (book visible_workbook_xml);
     "broken.xlsx" := ZipArchive (book (text "<workbook"));
     "doc.ods" := ZipArchive document;
     "data.csv" := Raw csv_text ]}.

End Fixture.

(** Further sample frames for the tabular pipeline. *)
Module FixtureCsv.

#[local] Existing Instance Fixture.byte_eq_dec.

(** A frame with no missing cell. *)
Definition complete_frame : Frame.DataFrame string :=
  {| Frame.columns := ["id"; "name"];
     Frame.rows := [[Some "1"; Some "ann"]; [Some "2"; Some "bob"]] |}.

Definition complete_text : bytes := Fixture.to_csv "full.csv" complete_frame.

(** A reader that knows the complete frame's text. *)
Definition read_csv (path : string) (b : bytes)
  : result (Frame.DataFrame string) :=
  if bool_decide (b = complete_text) then Ok complete_frame
  else Raise ParserError.

End FixtureCsv.

(** Further sample archives: members as a spreadsheet application writes
    them, and a workbook holding a carriage return. *)
Module FixtureMore.
Import ET Zip.

#[local] Existing Instance Fixture.byte_eq_dec.

(** A member whose [external_attr] is 0. *)
Definition plain_member (name : string) (payload : bytes) : Entry :=
  {| info := {| filename := name; date_time := Fixture.stamp;
                compress_type := ZIP_DEFLATED;
                external_attr := 0; comment := [] |};
     data := payload |}.

Definition excel_book : Container :=
  [plain_member "[Content_Types].xml" (Fixture.text "<Types/>");
   plain_member "xl/workbook.xml" Fixture.visible_workbook_xml;
   plain_member "xl/worksheets/sheet1.xml" (Fixture.text "<worksheet/>")].

Definition cr : string := String (ascii_of_nat 13) "".
Definition lf : string := String (ascii_of_nat 10) "".
Definition dq : string := String (ascii_of_nat 34) "".

(** A workbook whose one child element has [content] as its text. *)
Definition text_workbook (content : string) : Element :=
  Elem (Fixture.clark Pruner.xlsx_ns "workbook") [] None None
       [Elem (Fixture.clark Pruner.xlsx_ns "extLst") [] (Some content)
             None []].

(** The source document: the text is a character reference to a carriage
    return, which the parser delivers as that character. *)
Definition cr_workbook_xml : bytes :=
  Fixture.text
    ("<workbook xmlns='http://schemas.openxmlformats.org/spreadsheetml/2006/main'>"
     +:+ "<extLst>&#13;</extLst></workbook>").

(** What [ET.tostring(tree, encoding='utf8')] writes for [text_workbook]:
    the text goes out as it is, a carriage return included. *)
Definition serialized (content : string) : bytes :=
  Fixture.text
    ("<?xml version='1.0' encoding='utf8'?>" +:+ lf
     +:+ "<ns0:workbook xmlns:ns0=" +:+ dq +:+ Pruner.xlsx_ns +:+ dq +:+ ">"
     +:+ "<ns0:extLst>" +:+ content +:+ "</ns0:extLst></ns0:workbook>").

Definition tostring (e : Element) : bytes :=
  match e with
  | Elem _ _ _ _ [Elem _ _ (Some content) _ _] => serialized content
  | _ => Fixture.tostring e
  end.

(** The parser on these documents: a literal carriage return in the input
    is a line end and comes back as a line feed. *)
Definition fromstring (b : bytes) : result Element :=
  if bool_decide (b = cr_workbook_xml) then Ok (text_workbook cr)
  else if bool_decide (b = serialized cr) then Ok (text_workbook lf)
  else if bool_decide (b = serialized lf) then Ok (text_workbook lf)
  else Fixture.fromstring b.

(** A table in which one row has an empty field and another row the
    field [NA], and the frame [pd.read_csv] builds from it: both cells are
    missing, and the column with the empty field holds floats. *)
Definition na_source : string := "id,name,score
1,ann,10
2,bob,
3,NA,30
4,dee,40
5,eve,50
".

Definition na_text : bytes := Fixture.text na_source.

Definition na_frame : Frame.DataFrame string :=
  {| Frame.columns := ["id"; "name"; "score"];
     Frame.rows :=
       [[Some "1"; Some "ann"; Some "10.0"];
        [Some "2"; Some "bob"; None];
        [Some "3"; None; Some "30.0"];
        [Some "4"; Some "dee"; Some "40.0"];
        [Some "5"; Some "eve"; Some "50.0"]] |}.

Definition read_csv (path : string) (b : bytes)
  : result (Frame.DataFrame string) :=
  if bool_decide (b = na_text) then Ok na_frame else Fixture.read_csv path b.

(** The fields of a line of comma-separated text, and the lines of a text. *)
Fixpoint split (sep : ascii) (s : string) : list string :=
  match s with
  | EmptyString => [""]
  | String c s' =>
      if bool_decide (c = sep) then "" :: split sep s'
      else match split sep s' with
           | field :: fields => String c field :: fields
           | [] => [String c ""]
           end
  end.



Definition disk : gmap string File :=
  <["excel.xlsx" := ZipArchive excel_book]>
    (<["cr.xlsx" := ZipArchive (Fixture.book cr_workbook_xml)]>
       (<["na.csv" := Raw na_text]> Fixture.disk)).

End FixtureMore.

(** * Properties *)

Section Properties.
Import ET Zip Obs.

Variable fromstring : bytes → result Element.
Variable tostring : Element → bytes.
Context {value : Type}.
Variable read_csv : string → bytes → result (Frame.DataFrame value).
Variable to_csv : string → Frame.DataFrame value → bytes.
Variable archive_bytes : Container → bytes.

(** ** Reading members *)

Lemma read_elem (c : Container) (e : Entry) :
  e ∈ c → ∃ b, read c (filename (info e)) = Ok b.
Proof.
  induction c as [|x c IH]; intros Hin.
  - by apply elem_of_nil in Hin.
  - simpl. destruct (read c (filename (info e))) as [b|err] eqn:Hr.
    + by exists b.
    + apply elem_of_cons in Hin as [->|Hin].
      * rewrite String.eqb_refl. by eexists.
      * destruct (IH Hin) as [b Hb]. congruence.
Qed.

Lemma read_absent (c : Container) (name : string) :
  name ∉ namelist c → read c name = Raise OtherError.
Proof.
  induction c as [|x c IH]; intros Hn; [done|].
  simpl in *. apply not_elem_of_cons in Hn as [Hne Hn].
  rewrite (IH Hn).
  destruct (String.eqb_spec (filename (info x)) name); congruence.
Qed.

Lemma read_unique (c : Container) (e : Entry) :
  unique_names c → e ∈ c → read c (filename (info e)) = Ok (data e).
Proof.
  unfold unique_names.
  induction c as [|x c IH]; intros Hnd Hin.
  - by apply elem_of_nil in Hin.
  - simpl in *. apply NoDup_cons in Hnd as [Hx Hnd].
    apply elem_of_cons in Hin as [->|Hin].
    + rewrite (read_absent c _ Hx), String.eqb_refl. done.
    + by rewrite (IH Hnd Hin).
Qed.

Lemma fetched_unique (c : Container) (e : Entry) :
  unique_names c → e ∈ c → fetched (read c) (filename (info e)) = data e.
Proof. intros Hu Hin. unfold fetched. by rewrite (read_unique c e Hu Hin). Qed.

(** ** One iteration, and the whole loop *)

Lemma xlsx_item_emit rm rh now rd zout item b :
  rd (filename item) = Ok b →
  xlsx_item fromstring tostring rm rh now rd zout item
  = Ok (zout ++ xlsx_emit fromstring tostring rm rh now item b).
Proof.
  intros Hrd. unfold xlsx_item, xlsx_emit. cbv zeta.
  destruct (rm && bool_decide (filename item = "xl/vbaProject.bin")).
  { by rewrite app_nil_r. }
  destruct (rh && bool_decide (filename item = "xl/workbook.xml")).
  - rewrite Hrd. simpl.
    by destruct (rewrite_workbook fromstring tostring b).
  - by rewrite Hrd.
Qed.

Lemma ods_item_emit rh now rd zout item b :
  rd (filename item) = Ok b →
  ods_item fromstring tostring rh now rd zout item
  = Ok (zout ++ ods_emit fromstring tostring rh now item b).
Proof.
  intros Hrd. unfold ods_item, ods_emit. cbv zeta.
  destruct (rh && bool_decide (filename item = "content.xml")).
  - rewrite Hrd. simpl.
    by destruct (rewrite_content fromstring tostring b).
  - by rewrite Hrd.
Qed.

(** When every read succeeds the loop runs to its end and the destination
    is the concatenation of what each iteration appended. *)
Lemma transcode_emit
  (step : Container → ZipInfo → result Container)
  (emit : ZipInfo → bytes → list Entry) (rd : string → result bytes)
  (items : list ZipInfo) :
  (∀ zout item b, rd (filename item) = Ok b →
                  step zout item = Ok (zout ++ emit item b)) →
  (∀ item, item ∈ items → ∃ b, rd (filename item) = Ok b) →
  ∀ zout,
    transcode step items zout
    = (zout ++ flat_map (fun item => emit item (fetched rd (filename item)))
                        items,
       None).
Proof.
  intros Hstep. induction items as [|item rest IH]; intros Hrd zout; simpl.
  - by rewrite app_nil_r.
  - destruct (Hrd item) as [b Hb]; [by left|].
    rewrite (Hstep zout item b Hb).
    rewrite IH by (intros i Hi; apply Hrd; by right).
    unfold fetched at 2. rewrite Hb. by rewrite app_assoc.
Qed.

Lemma infolist_read (zin : Container) (item : ZipInfo) :
  item ∈ infolist zin → ∃ b, read zin (filename item) = Ok b.
Proof.
  unfold infolist. intros Hin.
  apply list_elem_of_fmap in Hin as [e [-> He]].
  by apply read_elem.
Qed.

Lemma not_writable_false fs output ow :
  writable fs output ow → exists_path fs output && negb ow = false.
Proof.
  unfold writable, exists_path. intros [Hn| ->].
  - rewrite Hn. rewrite bool_decide_eq_false_2; [done|].
    by intros [? ?].
  - by rewrite andb_false_r.
Qed.

(** A run on a readable archive, with distinct paths and a writable
    destination, succeeds and leaves [xlsx_output] at the destination. *)
Lemma sanitize_xlsx_runs fs input output rm rh ow now zin :
  fs !! input = Some (ZipArchive zin) →
  input ≠ output →
  writable fs output ow →
  sanitize_xlsx fromstring tostring fs input output rm rh ow now
  = (true,
     <[output := ZipArchive (xlsx_output fromstring tostring rm rh now zin)]>
       fs).
Proof.
  intros Hin Hne Hw. unfold sanitize_xlsx.
  rewrite (not_writable_false _ _ _ Hw).
  unfold open_read. rewrite Hin.
  rewrite (transcode_emit _ (xlsx_emit fromstring tostring rm rh now)
             (zin_read input output zin)).
  - simpl. rewrite insert_insert_eq. unfold xlsx_output, zin_read.
    rewrite bool_decide_eq_false_2 by done. done.
  - intros. by apply xlsx_item_emit.
  - intros item Hitem. unfold zin_read.
    rewrite bool_decide_eq_false_2 by done. by apply infolist_read.
Qed.

Lemma sanitize_ods_runs fs input output rm rh ow now zin :
  fs !! input = Some (ZipArchive zin) →
  input ≠ output →
  writable fs output ow →
  sanitize_ods fromstring tostring fs input output rm rh ow now
  = (true,
     <[output := ZipArchive (ods_output fromstring tostring rh now zin)]> fs).
Proof.
  intros Hin Hne Hw. unfold sanitize_ods.
  rewrite (not_writable_false _ _ _ Hw).
  unfold open_read. rewrite Hin.
  rewrite (transcode_emit _ (ods_emit fromstring tostring rh now)
             (zin_read input output zin)).
  - simpl. rewrite insert_insert_eq. unfold ods_output, zin_read.
    rewrite bool_decide_eq_false_2 by done. done.
  - intros. by apply ods_item_emit.
  - intros item Hitem. unfold zin_read.
    rewrite bool_decide_eq_false_2 by done. by apply infolist_read.
Qed.

(** ** Names of the destination *)

Lemma xlsx_emit_keeps_name rm rh now :
  keeps_name (xlsx_emit fromstring tostring rm rh now).
Proof.
  intros item b. unfold xlsx_emit.
  destruct (rm && _); [apply sublist_nil_l|].
  destruct (rh && _); simpl; reflexivity.
Qed.

Lemma ods_emit_keeps_name rh now :
  keeps_name (ods_emit fromstring tostring rh now).
Proof.
  intros item b. unfold ods_emit.
  destruct (rh && _); simpl; reflexivity.
Qed.

Lemma namelist_app (c1 c2 : Container) :
  namelist (c1 ++ c2) = namelist c1 ++ namelist c2.
Proof. unfold namelist. apply map_app. Qed.

Lemma keeps_name_sublist emit (g : ZipInfo → bytes) (items : list ZipInfo) :
  keeps_name emit →
  namelist (flat_map (fun item => emit item (g item)) items)
    `sublist_of` map filename items.
Proof.
  intros Hk. induction items as [|item rest IH]; simpl; [constructor|].
  rewrite namelist_app.
  change (filename item :: map filename rest)
    with ([filename item] ++ map filename rest).
  apply sublist_app; [apply Hk | apply IH].
Qed.

Lemma namelist_infolist (zin : Container) :
  map filename (infolist zin) = namelist zin.
Proof. unfold infolist, namelist. by rewrite map_map. Qed.

Lemma xlsx_output_names rm rh now zin :
  namelist (xlsx_output fromstring tostring rm rh now zin)
    `sublist_of` namelist zin.
Proof.
  rewrite <- (namelist_infolist zin). unfold xlsx_output.
  apply (keeps_name_sublist _ (fun item => fetched (read zin) (filename item))).
  apply xlsx_emit_keeps_name.
Qed.

Lemma ods_output_names rh now zin :
  namelist (ods_output fromstring tostring rh now zin)
    `sublist_of` namelist zin.
Proof.
  rewrite <- (namelist_infolist zin). unfold ods_output.
  apply (keeps_name_sublist _ (fun item => fetched (read zin) (filename item))).
  apply ods_emit_keeps_name.
Qed.

(** With unique names a read returns the member's own payload, so the
    destination is a member-wise image of the source. *)
Lemma flat_map_members (emit : ZipInfo → bytes → list Entry) (zin : Container) :
  unique_names zin →
  flat_map (fun item => emit item (fetched (read zin) (filename item)))
           (infolist zin)
  = flat_map (fun e => emit (info e) (data e)) zin.
Proof.
  intros Hu.
  assert (∀ c, (∀ e, e ∈ c → e ∈ zin) →
    flat_map (fun item => emit item (fetched (read zin) (filename item)))
             (infolist c)
    = flat_map (fun e => emit (info e) (data e)) c) as Hgen.
  { induction c as [|e c IH]; intros Hsub; [done|].
    simpl. rewrite (fetched_unique zin e Hu) by (apply Hsub; by left).
    f_equal. apply IH. intros e' He'. apply Hsub. by right. }
  by apply Hgen.
Qed.

Lemma xlsx_output_members rm rh now zin :
  unique_names zin →
  xlsx_output fromstring tostring rm rh now zin
  = flat_map (fun e => xlsx_emit fromstring tostring rm rh now (info e) (data e))
             zin.
Proof. apply flat_map_members. Qed.

Lemma ods_output_members rh now zin :
  unique_names zin →
  ods_output fromstring tostring rh now zin
  = flat_map (fun e => ods_emit fromstring tostring rh now (info e) (data e))
             zin.
Proof. apply flat_map_members. Qed.

Lemma flat_map_singleton (c : Container) :
  flat_map (fun e => [ {| info := stored (info e); data := data e |} ]) c
  = map copied c.
Proof.
  induction c as [|e c IH]; [done|]. simpl. by rewrite IH.
Qed.

Lemma contents_copied (c : Container) :
  contents (map copied c) = contents c.
Proof.
  unfold contents. rewrite map_map. by apply map_ext.
Qed.

Lemma xlsx_output_disabled now zin :
  unique_names zin →
  xlsx_output fromstring tostring false false now zin = map copied zin.
Proof.
  intros Hu. rewrite xlsx_output_members by done. apply flat_map_singleton.
Qed.

Lemma ods_output_disabled now zin :
  unique_names zin →
  ods_output fromstring tostring false now zin = map copied zin.
Proof.
  intros Hu. rewrite ods_output_members by done. apply flat_map_singleton.
Qed.

(** C3: with [remove_macros] and [remove_hidden_sheets] both off, either
    archive pipeline succeeds and writes an archive with the source's
    member names and payload bytes, member for member in the source's
    order. *)
Theorem roundtrip_options_disabled fs input output ow now zin :
  fs !! input = Some (ZipArchive zin) →
  unique_names zin →
  input ≠ output →
  writable fs output ow →
  ∃ zx zo,
    sanitize_xlsx fromstring tostring fs input output false false ow now
      = (true, <[output := ZipArchive zx]> fs)
    ∧ contents zx = contents zin
    ∧ sanitize_ods fromstring tostring fs input output false false ow now
      = (true, <[output := ZipArchive zo]> fs)
    ∧ contents zo = contents zin.
Proof.
  intros Hin Hu Hne Hw. eexists _, _.
  split; [by apply sanitize_xlsx_runs|].
  split; [by rewrite xlsx_output_disabled, contents_copied|].
  split; [by apply sanitize_ods_runs|].
  by rewrite ods_output_disabled, contents_copied.
Qed.

(** ** Both families at once *)

Lemma sanitize_runs fam fs input output rm rh ow now zin :
  fs !! input = Some (ZipArchive zin) →
  input ≠ output →
  writable fs output ow →
  sanitize fromstring tostring fam fs input output rm rh ow now
  = (true,
     <[output := ZipArchive
         (flat_map (fun item =>
                      emit fromstring tostring fam rm rh now item
                           (fetched (read zin) (filename item)))
                   (infolist zin))]> fs).
Proof.
  intros Hin Hne Hw. destruct fam; simpl.
  - by apply sanitize_xlsx_runs.
  - by apply sanitize_ods_runs.
Qed.

Lemma emit_keeps_name fam rm rh now :
  keeps_name (emit fromstring tostring fam rm rh now).
Proof.
  destruct fam; [apply xlsx_emit_keeps_name | apply ods_emit_keeps_name].
Qed.

(** The case analysis of one iteration, by the member's name. *)
Lemma emit_cases fam rm rh now item b :
  emit fromstring tostring fam rm rh now item b
  = if dropped fam rm (filename item) then []
    else if rh && bool_decide (filename item = descriptor_name fam)
    then [ {| info := stored (fresh_info now (filename item));
              data := match rewrite_descriptor fromstring tostring fam b with
                      | Ok content' => content'
                      | Raise _ => b
                      end |} ]
    else [ {| info := stored item; data := b |} ].
Proof. by destruct fam. Qed.

Lemma trigger_false fam rm rh name :
  trigger fam name = false →
  dropped fam rm name = false
  ∧ rh && bool_decide (name = descriptor_name fam) = false.
Proof.
  destruct fam; simpl.
  - intros [H1 H2]%orb_false_iff. rewrite H1, H2.
    by rewrite !andb_false_r.
  - intros ->. by rewrite andb_false_r.
Qed.

Lemma emit_untouched fam rm rh now item b :
  trigger fam (filename item) = false →
  emit fromstring tostring fam rm rh now item b
  = [ {| info := stored item; data := b |} ].
Proof.
  intros Ht. rewrite emit_cases.
  destruct (trigger_false fam rm rh _ Ht) as [-> ->]. done.
Qed.

Lemma emit_filename fam rm rh now item b e' :
  e' ∈ emit fromstring tostring fam rm rh now item b →
  filename (info e') = filename item.
Proof.
  intros Hin. pose proof (emit_keeps_name fam rm rh now item b) as Hk.
  assert (filename (info e') ∈ namelist (emit fromstring tostring fam rm rh now item b)) as Hn.
  { unfold namelist. apply list_elem_of_fmap. by exists e'. }
  eapply elem_of_sublist in Hn; [|exact Hk].
  by apply list_elem_of_singleton in Hn.
Qed.

Lemma filter_none {A} (p : A → bool) (l : list A) :
  (∀ x, x ∈ l → p x = false) → List.filter p l = [].
Proof.
  induction l as [|x l IH]; intros Hp; [done|].
  simpl. rewrite Hp by (by left). apply IH. intros y Hy. apply Hp. by right.
Qed.

Lemma filter_flat_map_members {A} (f : A → list A) (g : A → A)
  (p : A → bool) (l : list A) :
  (∀ x, p x = true → f x = [g x] ∧ p (g x) = true) →
  (∀ x y, p x = false → y ∈ f x → p y = false) →
  List.filter p (flat_map f l) = map g (List.filter p l).
Proof.
  intros Hkeep Hdrop. induction l as [|x l IH]; [done|].
  simpl. rewrite List.filter_app, IH.
  destruct (p x) eqn:Hx.
  - destruct (Hkeep x Hx) as [-> Hg]. simpl. by rewrite Hg.
  - rewrite filter_none; [done|]. intros y Hy. by eapply Hdrop.
Qed.

Lemma output_untouched fam rm rh now zin :
  unique_names zin →
  let zout := flat_map (fun item =>
                emit fromstring tostring fam rm rh now item
                     (fetched (read zin) (filename item))) (infolist zin) in
  List.filter (fun e => negb (trigger fam (filename (info e)))) zout
  = map copied
      (List.filter (fun e => negb (trigger fam (filename (info e)))) zin).
Proof.
  intros Hu zout. subst zout. rewrite flat_map_members by done.
  apply filter_flat_map_members.
  - intros [i d] Hp. split; [|exact Hp].
    apply negb_true_iff in Hp. simpl in *. by rewrite emit_untouched.
  - intros e e' Hp Hin. apply emit_filename in Hin. simpl in Hin.
    by rewrite Hin.
Qed.

Lemma output_unique fam rm rh now zin :
  unique_names zin →
  unique_names (flat_map (fun item =>
                  emit fromstring tostring fam rm rh now item
                       (fetched (read zin) (filename item))) (infolist zin)).
Proof.
  unfold unique_names. intros Hu.
  eapply sublist_NoDup; [exact Hu|].
  rewrite <- (namelist_infolist zin).
  apply (keeps_name_sublist _ (fun item => fetched (read zin) (filename item))).
  apply emit_keeps_name.
Qed.

(** C2: in either family and for every option setting, each source member
    whose name is not a trigger name is read back from the destination
    with the bytes it had, and the members under such names are, name and
    bytes, the same in the destination as in the source, in the same
    order. *)
Theorem untouched_entries_preserved fam fs input output rm rh ow now zin :
  fs !! input = Some (ZipArchive zin) →
  unique_names zin →
  input ≠ output →
  writable fs output ow →
  ∃ zout,
    sanitize fromstring tostring fam fs input output rm rh ow now
      = (true, <[output := ZipArchive zout]> fs)
    ∧ contents
        (List.filter (fun e => negb (trigger fam (filename (info e)))) zout)
      = contents
          (List.filter (fun e => negb (trigger fam (filename (info e)))) zin)
    ∧ ∀ e, e ∈ zin → trigger fam (filename (info e)) = false →
           read zout (filename (info e)) = Ok (data e).
Proof.
  intros Hin Hu Hne Hw. eexists. split; [by apply sanitize_runs|].
  pose proof (output_untouched fam rm rh now zin Hu) as Hf. simpl in Hf.
  split; [by rewrite Hf, contents_copied|].
  intros e He Ht.
  assert (copied e ∈ flat_map (fun item =>
                emit fromstring tostring fam rm rh now item
                     (fetched (read zin) (filename item))) (infolist zin))
    as Hout.
  { apply list_elem_of_In.
    eapply (proj1 (List.filter_In _ _ _)). rewrite Hf.
    apply list_elem_of_In, list_elem_of_fmap_2, list_elem_of_In.
    apply List.filter_In. split; [by apply list_elem_of_In|].
    by rewrite Ht. }
  change (filename (info e)) with (filename (info (copied e))).
  change (data e) with (data (copied e)).
  apply read_unique; [by apply output_unique|done].
Qed.

(** ** Dropping the macro binary *)

Lemma xlsx_item_macro_free rh now rd zout item zout' :
  xlsx_item fromstring tostring true rh now rd zout item = Ok zout' →
  macro_free zout → macro_free zout'.
Proof.
  unfold xlsx_item, macro_free. cbv zeta. simpl.
  case_bool_decide as Hname; [by intros [= <-]|].
  assert (∀ i b, filename i = filename item →
            "xl/vbaProject.bin" ∉ namelist zout →
            "xl/vbaProject.bin" ∉ namelist (zout ++ [ {| info := i; data := b |} ]))
    as Happ.
  { intros i b Hi Hz. rewrite namelist_app. simpl.
    rewrite elem_of_app, list_elem_of_singleton, Hi.
    intros [?|?]; [done|congruence]. }
  destruct (rh && _).
  - destruct (rd (filename item)) as [content|]; [simpl|done].
    destruct (rewrite_workbook fromstring tostring content);
      intros [= <-] Hz; by apply Happ.
  - destruct (rd (filename item)) as [buffer|]; [simpl|done].
    intros [= <-] Hz. by apply Happ.
Qed.

Lemma transcode_invariant (P : Container → Prop)
  (step : Container → ZipInfo → result Container) :
  (∀ zout item zout', step zout item = Ok zout' → P zout → P zout') →
  ∀ items zout, P zout → P (fst (transcode step items zout)).
Proof.
  intros Hstep. induction items as [|item rest IH]; intros zout HP; [done|].
  simpl. destruct (step zout item) as [zout'|] eqn:Hs; [|done].
  apply IH. by eapply Hstep.
Qed.

(** C4: with [remove_macros] set, the archive that [sanitize_xlsx] leaves
    at the destination has no member named [xl/vbaProject.bin], whether or
    not the run succeeds; nothing is written in its place. *)
Theorem macro_entry_absent fs input output rh ow now zin :
  fs !! input = Some (ZipArchive zin) →
  writable fs output ow →
  ∃ ok zout,
    sanitize_xlsx fromstring tostring fs input output true rh ow now
      = (ok, <[output := ZipArchive zout]> fs)
    ∧ ("xl/vbaProject.bin" ∉ namelist zout)
    ∧ (input ≠ output → ok = true).
Proof.
  intros Hin Hw. unfold sanitize_xlsx.
  rewrite (not_writable_false _ _ _ Hw).
  unfold open_read. rewrite Hin. cbv zeta.
  destruct (transcode _ (infolist zin) []) as [zout err] eqn:Ht.
  assert (macro_free zout) as Hfree.
  { change zout with (fst (zout, err)). rewrite <- Ht.
    apply transcode_invariant; [apply xlsx_item_macro_free|].
    unfold macro_free. simpl. apply not_elem_of_nil. }
  set (ok := bool_decide (err = None)). exists ok, zout. subst ok.
  split; [destruct err; simpl; by rewrite insert_insert_eq|].
  split; [exact Hfree|].
  intros Hne.
  rewrite (transcode_emit _ (xlsx_emit fromstring tostring true rh now)
             (zin_read input output zin)) in Ht.
  - by inversion Ht.
  - intros. by apply xlsx_item_emit.
  - intros item Hitem. unfold zin_read.
    rewrite bool_decide_eq_false_2 by done. by apply infolist_read.
Qed.

(** ** The dispatcher *)

Lemma main_archive fam fs args now :
  Path.lower (snd (Path.splitext (input_file args))) = extension fam →
  main fromstring tostring read_csv to_csv archive_bytes fs args now
  = let r := sanitize fromstring tostring fam fs
               (input_file args) (output_file args) (remove_macros args)
               (remove_hidden_sheets args) (overwrite args) now in
    ((if fst r then 0 else 1)%Z, snd r).
Proof.
  intros Hext. unfold main. rewrite Hext. by destruct fam.
Qed.

Lemma output_names fam rm rh now (g : ZipInfo → bytes) (items : list ZipInfo) :
  namelist (flat_map (fun item =>
                        emit fromstring tostring fam rm rh now item (g item))
                     items)
  = List.filter (fun name => negb (dropped fam rm name)) (map filename items).
Proof.
  induction items as [|item rest IH]; [done|].
  simpl. rewrite namelist_app, IH, emit_cases.
  destruct (dropped fam rm (filename item)); [done|].
  by destruct (rh && _).
Qed.





(** C7: when the output path exists and [--overwrite] is not given, [main]
    exits with status 1 and the file system, the existing output file
    included, is exactly what it was. *)
Theorem existing_output_refused fs args now :
  is_Some (fs !! output_file args) →
  overwrite args = false →
  main fromstring tostring read_csv to_csv archive_bytes fs args now
  = (1%Z, fs).
Proof.
  intros Hex How.
  assert (exists_path fs (output_file args) && negb (overwrite args) = true)
    as Hguard.
  { unfold exists_path. rewrite How, bool_decide_eq_true_2; done. }
  unfold main, sanitize_xlsx, sanitize_ods, sanitize_csv.
  rewrite Hguard. by repeat case_bool_decide.
Qed.

(** ** The tabular pipeline *)

Lemma dropna_rows (df : Frame.DataFrame value) :
  Frame.rows (Frame.dropna df) = List.filter Frame.complete (Frame.rows df).
Proof. done. Qed.

Lemma dropna_complete (df : Frame.DataFrame value) row :
  row ∈ Frame.rows (Frame.dropna df) → Frame.complete row = true.
Proof.
  rewrite dropna_rows. intros Hin%list_elem_of_In%List.filter_In. tauto.
Qed.


(** ** Metadata of the members written *)

Lemma output_infos fam rm rh now (g : ZipInfo → bytes) (items : list ZipInfo) :
  infolist (flat_map (fun item =>
                        emit fromstring tostring fam rm rh now item (g item))
                     items)
  = map (fun item =>
           if rh && bool_decide (filename item = descriptor_name fam)
           then stored (fresh_info now (filename item))
           else stored item)
        (List.filter (fun item => negb (dropped fam rm (filename item)))
                     items).
Proof.
  unfold infolist. induction items as [|item rest IH]; [done|].
  simpl. rewrite map_app, IH, emit_cases.
  destruct (dropped fam rm (filename item)); [done|].
  simpl. by destruct (rh && _).
Qed.

Lemma stored_as_read (item : ZipInfo) :
  external_attr item ≠ 0%Z →
  dos_time (date_time item) = date_time item →
  stored item = item.
Proof.
  intros Hattr Htime. destruct item as [n t c a k]. unfold stored. simpl in *.
  rewrite Htime. by rewrite bool_decide_eq_false_2.
Qed.

(** C10, as amended: in a successful run with [remove_hidden_sheets] set
    the destination's directory is the source's, member for member in
    order and without a dropped macro binary, where each member under the
    descriptor's name carries the [ZipInfo] of a [writestr] by name (the
    current time at two-second resolution, deflate, [0o600 << 16]), whatever
    the source member carried and whether or not the rewrite succeeded, and
    every other member carries its source [ZipInfo] with an [external_attr]
    of 0 replaced by [0o600 << 16]; a source [ZipInfo] with another
    [external_attr] is passed on as it was read. *)
Theorem rewritten_entry_fresh_metadata fam fs input output rm ow now zin :
  fs !! input = Some (ZipArchive zin) →
  input ≠ output →
  writable fs output ow →
  ∃ zout,
    sanitize fromstring tostring fam fs input output rm true ow now
      = (true, <[output := ZipArchive zout]> fs)
    ∧ infolist zout
      = map (fun item =>
               if bool_decide (filename item = descriptor_name fam)
               then stored (fresh_info now (descriptor_name fam))
               else stored item)
            (List.filter (fun item => negb (dropped fam rm (filename item)))
                         (infolist zin))
    ∧ date_time (stored (fresh_info now (descriptor_name fam))) = dos_time now
    ∧ compress_type (stored (fresh_info now (descriptor_name fam)))
      = ZIP_DEFLATED
    ∧ external_attr (stored (fresh_info now (descriptor_name fam)))
      = Z.shiftl 384 16
    ∧ (∀ item, external_attr item = 0%Z →
               external_attr (stored item) = Z.shiftl 384 16)
    ∧ (∀ item, external_attr item ≠ 0%Z →
               dos_time (date_time item) = date_time item →
               stored item = item).
Proof.
  intros Hin Hne Hw. eexists. split; [by apply sanitize_runs|].
  split.
  { rewrite output_infos. simpl. apply map_ext_in.
    intros item _. by case_bool_decide as Hd; [rewrite Hd|]. }
  split; [done|]. split; [done|]. split; [by destruct fam|].
  split; [|apply stored_as_read].
  intros item Hz. unfold stored. simpl. by rewrite Hz.
Qed.

(** ** What the two pruning blocks compute *)

Lemma remove_sheets_unchanged sheets ids tree tree' :
  Pruner.remove_sheets sheets ids tree = Ok tree' → tree' = tree.
Proof.
  induction sheets as [|sheet rest IH]; simpl.
  - by intros [= <-].
  - case_bool_decide; [done|]. apply IH.
Qed.

Lemma remove_sheets_raises sheets ids tree sheet :
  sheet ∈ sheets → get sheet "sheetId" ∈ ids →
  Pruner.remove_sheets sheets ids tree = Raise AttributeError.
Proof.
  induction sheets as [|x rest IH]; intros Hin Hid.
  - by apply elem_of_nil in Hin.
  - simpl. case_bool_decide as Hx; [done|].
    apply elem_of_cons in Hin as [->|Hin]; [done|by apply IH].
Qed.


Lemma prune_workbook_unchanged tree tree' :
  Pruner.prune_workbook tree = Ok tree' → tree' = tree.
Proof. apply remove_sheets_unchanged. Qed.

(** One hidden sheet anywhere below the root is enough for the block to
    raise: its own [sheetId] is in the list it is tested against. *)
Lemma prune_workbook_hidden tree sheet :
  sheet ∈ findall_descendants Pruner.xlsx_ns "sheet" tree →
  Pruner.is_hidden_state (get sheet "state") = true →
  Pruner.prune_workbook tree = Raise AttributeError.
Proof.
  intros Hin Hhid. unfold Pruner.prune_workbook.
  apply (remove_sheets_raises _ _ _ sheet); [done|].
  unfold Pruner.sheets_to_remove.
  apply (list_elem_of_fmap_2 (fun s => get s "sheetId")).
  apply list_elem_of_In, List.filter_In. split; [by apply list_elem_of_In|done].
Qed.


(** The table loop raises at its first table, hidden or not. *)
Lemma prune_content_cases tree :
  Pruner.prune_content tree
  = match findall_descendants Pruner.ods_table_ns "table" tree with
    | [] => Ok tree
    | _ :: _ => Raise TypeError
    end.
Proof.
  unfold Pruner.prune_content.
  by destruct (findall_descendants Pruner.ods_table_ns "table" tree).
Qed.

Lemma prune_content_unchanged tree tree' :
  Pruner.prune_content tree = Ok tree' → tree' = tree.
Proof.
  rewrite prune_content_cases.
  destruct (findall_descendants _ _ _); [by intros [= <-]|done].
Qed.

Lemma rewrite_descriptor_ok fam content content' :
  rewrite_descriptor fromstring tostring fam content = Ok content' →
  ∃ tree, fromstring content = Ok tree
          ∧ content' = tostring tree
          ∧ match fam with
            | FamilyA => Pruner.prune_workbook tree
            | FamilyB => Pruner.prune_content tree
            end = Ok tree.
Proof.
  destruct fam; simpl; unfold rewrite_workbook, rewrite_content;
    destruct (fromstring content) as [tree|]; simpl; try done.
  - destruct (Pruner.prune_workbook tree) as [tree'|] eqn:Hp; [|done].
    simpl. intros [= <-].
    apply prune_workbook_unchanged in Hp as Heq. subst tree'. by exists tree.
  - destruct (Pruner.prune_content tree) as [tree'|] eqn:Hp; [|done].
    simpl. intros [= <-].
    apply prune_content_unchanged in Hp as Heq. subst tree'. by exists tree.
Qed.

(** ** Running the sanitizer on its own output *)

(** What a descriptor was rewritten to is rewritten to itself. *)
Lemma rewrite_descriptor_stable fam content :
  reparses_on fromstring tostring content →
  let once := match rewrite_descriptor fromstring tostring fam content with
              | Ok content' => content'
              | Raise _ => content
              end in
  match rewrite_descriptor fromstring tostring fam once with
  | Ok content' => content'
  | Raise _ => once
  end = once.
Proof.
  intros Hrt. cbv zeta.
  destruct (rewrite_descriptor fromstring tostring fam content)
    as [content'|err] eqn:Hfirst.
  - destruct (rewrite_descriptor_ok _ _ _ Hfirst) as (tree & Hp & -> & Hprune).
    apply Hrt in Hp.
    destruct fam; simpl; unfold rewrite_workbook, rewrite_content;
      rewrite Hp; simpl; by rewrite Hprune.
  - by rewrite Hfirst.
Qed.

Lemma dos_time_dos_time (t : DateTime) : dos_time (dos_time t) = dos_time t.
Proof.
  destruct t as [date [[hour minute] second]]. unfold dos_time.
  assert (2 * (second / 2) / 2 = second / 2)%Z as ->; [|done].
  rewrite Z.mul_comm. by apply Z.div_mul.
Qed.

(** Writing what was read back changes nothing more. *)
Lemma stored_stored (item : ZipInfo) : stored (stored item) = stored item.
Proof.
  unfold stored. simpl. rewrite dos_time_dos_time. f_equal.
  by repeat case_bool_decide.
Qed.

Lemma emit_again fam rm now1 now2 item b e1 :
  (filename item = descriptor_name fam → reparses_on fromstring tostring b) →
  e1 ∈ emit fromstring tostring fam rm true now1 item b →
  ∃ e2, emit fromstring tostring fam rm true now2 (info e1) (data e1) = [e2]
        ∧ filename (info e2) = filename (info e1)
        ∧ data e2 = data e1
        ∧ (now2 = now1 → e2 = e1).
Proof.
  intros Hrt. rewrite !emit_cases.
  destruct (dropped fam rm (filename item)) eqn:Hdrop;
    [by intros ?%elem_of_nil|].
  simpl. case_bool_decide as Hd; intros ->%list_elem_of_singleton; simpl.
  - rewrite Hdrop, bool_decide_eq_true_2 by done.
    rewrite (rewrite_descriptor_stable fam b (Hrt Hd)).
    eexists. split; [done|]. simpl. repeat split. by intros ->.
  - rewrite Hdrop, bool_decide_eq_false_2 by done.
    eexists. split; [done|]. simpl. repeat split.
    intros _. by rewrite stored_stored.
Qed.

Lemma contents_app (c1 c2 : Container) :
  contents (c1 ++ c2) = contents c1 ++ contents c2.
Proof. unfold contents. apply map_app. Qed.

(** A second pass over members a first pass emitted keeps every name and
    payload, and every [ZipInfo] too when the clock reads the same. *)
Lemma second_pass fam rm now1 now2 (z1 : Container) :
  (∀ e1, e1 ∈ z1 →
     ∃ item b, e1 ∈ emit fromstring tostring fam rm true now1 item b
               ∧ (filename item = descriptor_name fam →
                  reparses_on fromstring tostring b)) →
  let z2 := flat_map (fun e1 => emit fromstring tostring fam rm true now2
                                     (info e1) (data e1)) z1 in
  contents z2 = contents z1 ∧ (now2 = now1 → z2 = z1).
Proof.
  cbv zeta. induction z1 as [|e1 z1 IH]; intros Hfirst; [done|].
  destruct IH as [IHc IHe]; [intros e He; apply Hfirst; by right|].
  destruct (Hfirst e1) as (item & b & He1 & Hrt); [by left|].
  destruct (emit_again fam rm now1 now2 item b e1 Hrt He1)
    as (e2 & Hemit & Hname & Hdata & Hsame).
  simpl. rewrite Hemit. simpl. split.
  - by rewrite IHc, Hname, Hdata.
  - intros Hnow. by rewrite IHe, Hsame.
Qed.

(** C8, as amended: when every descriptor member of the source, where it
    parses, is serialized to bytes that parse back to the same tree, a
    second run with [remove_hidden_sheets] set that reads what a first such
    run wrote succeeds and writes an archive with the same member names,
    order and payloads as the one it read; when the clock reads the same
    in both runs the two archives are equal. *)
Theorem sanitize_twice fam fs input mid output rm ow1 ow2 now1 now2 zin :
  (∀ e, e ∈ zin → filename (info e) = descriptor_name fam →
        reparses_on fromstring tostring (data e)) →
  fs !! input = Some (ZipArchive zin) →
  unique_names zin →
  input ≠ mid →
  mid ≠ output →
  writable fs mid ow1 →
  writable fs output ow2 →
  ∃ z1 z2,
    sanitize fromstring tostring fam fs input mid rm true ow1 now1
      = (true, <[mid := ZipArchive z1]> fs)
    ∧ sanitize fromstring tostring fam (<[mid := ZipArchive z1]> fs)
               mid output rm true ow2 now2
      = (true, <[output := ZipArchive z2]> (<[mid := ZipArchive z1]> fs))
    ∧ contents z2 = contents z1
    ∧ (now2 = now1 → z2 = z1).
Proof.
  intros Hrt Hin Hu Hne1 Hne2 Hw1 Hw2.
  eexists _, _. split; [by apply sanitize_runs|].
  split.
  { apply sanitize_runs; [by rewrite lookup_insert_eq|done|].
    destruct Hw2 as [Hfree|Hov]; [left|by right].
    by rewrite lookup_insert_ne. }
  rewrite (flat_map_members _ _ (output_unique fam rm true now1 zin Hu)).
  apply second_pass.
  rewrite flat_map_members by done.
  intros e1 [e [He He1]]%list_elem_of_In%List.in_flat_map.
  apply list_elem_of_In in He, He1.
  exists (info e), (data e). split; [done|]. intros Hd. by apply Hrt.
Qed.

(** ** Descriptors with hidden nodes *)

(** A workbook that parses and holds a hidden sheet is written back as it
    was read: the [except] clause copies the original bytes. *)
Lemma hidden_sheet_written_back rm now item b tree sheet :
  filename item = "xl/workbook.xml" →
  fromstring b = Ok tree →
  sheet ∈ findall_descendants Pruner.xlsx_ns "sheet" tree →
  Pruner.is_hidden_state (get sheet "state") = true →
  xlsx_emit fromstring tostring rm true now item b
  = [ {| info := stored (fresh_info now "xl/workbook.xml"); data := b |} ].
Proof.
  intros Hname Hparse Hin Hhid. unfold xlsx_emit. rewrite Hname.
  rewrite bool_decide_eq_false_2, andb_false_r by done. simpl.
  unfold rewrite_workbook. rewrite Hparse. simpl.
  by rewrite (prune_workbook_hidden tree sheet Hin Hhid).
Qed.

(** A content document that parses and holds any table at all is written
    back as it was read. *)
Lemma any_table_written_back now item b tree table :
  filename item = "content.xml" →
  fromstring b = Ok tree →
  table ∈ findall_descendants Pruner.ods_table_ns "table" tree →
  ods_emit fromstring tostring true now item b
  = [ {| info := stored (fresh_info now "content.xml"); data := b |} ].
Proof.
  intros Hname Hparse Hin. unfold ods_emit. rewrite Hname. simpl.
  unfold rewrite_content. rewrite Hparse. simpl.
  rewrite prune_content_cases.
  destruct (findall_descendants _ _ _); [by apply elem_of_nil in Hin|done].
Qed.

(** * Further properties of the pipelines *)

(** ** What the descriptor is rewritten to *)






(** ** Which members are written *)

(** X3: a successful archive run writes exactly the source's member names,
    in the source's order and with repetitions kept, except the macro
    binary's name in family A when [remove_macros] is set; the destination
    never has more members than the source.  No assumption on names. *)
Theorem output_member_names fam fs input output rm rh ow now zin :
  fs !! input = Some (ZipArchive zin) →
  input ≠ output →
  writable fs output ow →
  ∃ zout,
    sanitize fromstring tostring fam fs input output rm rh ow now
      = (true, <[output := ZipArchive zout]> fs)
    ∧ namelist zout
      = List.filter (fun name => negb (dropped fam rm name)) (namelist zin)
    ∧ (length zout ≤ length zin)%nat.
Proof.
  intros Hin Hne Hw. eexists. split; [by apply sanitize_runs|].
  assert (namelist (flat_map (fun item =>
              emit fromstring tostring fam rm rh now item
                   (fetched (read zin) (filename item))) (infolist zin))
          = List.filter (fun name => negb (dropped fam rm name))
                        (namelist zin)) as Hnames.
  { by rewrite output_names, namelist_infolist. }
  split; [exact Hnames|].
  apply (f_equal length) in Hnames. unfold namelist in Hnames at 1.
  rewrite length_map in Hnames. rewrite Hnames.
  etrans; [apply List.filter_length_le|].
  unfold namelist. by rewrite length_map.
Qed.

Lemma filter_flat_map_keep {A B} (f : A → list B) (g : A → B)
  (p : A → bool) (l : list A) :
  (∀ x, x ∈ l → f x = if p x then [g x] else []) →
  flat_map f l = map g (List.filter p l).
Proof.
  induction l as [|x l IH]; intros Hf; [done|].
  simpl. rewrite (Hf x) by (by left).
  rewrite IH by (intros y Hy; apply Hf; by right).
  by destruct (p x).
Qed.

Lemma xlsx_output_macros_only now zin :
  unique_names zin →
  xlsx_output fromstring tostring true false now zin
  = map copied
      (List.filter
         (fun e => negb (bool_decide
                           (filename (info e) = "xl/vbaProject.bin")))
         zin).
Proof.
  intros Hu. rewrite xlsx_output_members by done.
  apply filter_flat_map_keep.
  intros [i d] _. unfold xlsx_emit. simpl.
  by case_bool_decide.
Qed.

(** X4: [remove_macros] alone removes exactly the members named
    [xl/vbaProject.bin]: every other member, the workbook descriptor
    included, is in the destination in its place with its name and bytes,
    and with its [ZipInfo] as a verbatim copy stores it (an [external_attr]
    of 0 replaced by [0o600 << 16]). *)
Theorem macros_only_removed fs input output ow now zin :
  fs !! input = Some (ZipArchive zin) →
  unique_names zin →
  input ≠ output →
  writable fs output ow →
  sanitize_xlsx fromstring tostring fs input output true false ow now
  = (true,
     <[output := ZipArchive
         (map copied
            (List.filter
               (fun e => negb (bool_decide
                                 (filename (info e) = "xl/vbaProject.bin")))
               zin))]> fs).
Proof.
  intros Hin Hu Hne Hw.
  rewrite (sanitize_xlsx_runs _ _ _ _ _ _ _ zin) by done.
  by rewrite xlsx_output_macros_only.
Qed.

(** X5: [sanitize_ods] with [remove_hidden_sheets] off copies every member
    verbatim whether or not [remove_macros] is requested: the request has
    no effect on this family, whatever macro members the archive holds.
    Names, order and bytes are the source's; each [ZipInfo] is the source's
    as a verbatim copy stores it. *)
Theorem ods_remove_macros_no_effect fs input output rm ow now zin :
  fs !! input = Some (ZipArchive zin) →
  unique_names zin →
  input ≠ output →
  writable fs output ow →
  sanitize_ods fromstring tostring fs input output rm false ow now
  = (true, <[output := ZipArchive (map copied zin)]> fs)
  ∧ contents (map copied zin) = contents zin.
Proof.
  intros Hin Hu Hne Hw. split; [|apply contents_copied].
  rewrite (sanitize_ods_runs _ _ _ _ _ _ _ zin) by done.
  by rewrite ods_output_disabled.
Qed.

(** X6: an archive with no member under a trigger name is copied verbatim
    by either pipeline, whatever options are set: names, order and bytes
    are the source's, each [ZipInfo] the source's as a verbatim copy stores
    it. *)
Theorem nothing_to_sanitize fam fs input output rm rh ow now zin :
  fs !! input = Some (ZipArchive zin) →
  unique_names zin →
  input ≠ output →
  writable fs output ow →
  (∀ e, e ∈ zin → trigger fam (filename (info e)) = false) →
  sanitize fromstring tostring fam fs input output rm rh ow now
  = (true, <[output := ZipArchive (map copied zin)]> fs)
  ∧ contents (map copied zin) = contents zin.
Proof.
  intros Hin Hu Hne Hw Hnone. split; [|apply contents_copied].
  rewrite (sanitize_runs fam _ _ _ _ _ _ _ zin) by done.
  rewrite flat_map_members by done.
  do 3 f_equal.
  rewrite (filter_flat_map_keep _ copied (fun _ => true)).
  - f_equal. clear. induction zin as [|x l IH]; [done|]. simpl. by rewrite IH.
  - intros [i d] He. rewrite emit_untouched; [done|]. by apply (Hnone _ He).
Qed.

(** ** Source and destination at one path *)

Lemma transcode_truncated
  (step : Container → ZipInfo → result Container) (drop : string → bool)
  (zin : Container) :
  (∀ zout item, step zout item
                = if drop (filename item) then Ok zout else Raise BadZipFile) →
  transcode step (infolist zin) []
  = ([], if forallb (fun e => drop (filename (info e))) zin
         then None else Some BadZipFile).
Proof.
  intros Hstep. induction zin as [|e zin IH]; [done|].
  simpl. rewrite Hstep. by destruct (drop (filename (info e))).
Qed.

(** X7: when the destination path is the source path (which needs
    [--overwrite]), opening the destination empties the file before any
    member is read: the run leaves an empty archive at that path, and it
    reports failure unless every member was a macro binary being dropped. *)
Theorem in_place_archive_run fam fs path rm rh now zin :
  fs !! path = Some (ZipArchive zin) →
  sanitize fromstring tostring fam fs path path rm rh true now
  = (forallb (fun e => dropped fam rm (filename (info e))) zin,
     <[path := ZipArchive []]> fs).
Proof.
  intros Hin.
  assert (∀ name, zin_read path path zin name = Raise BadZipFile) as Hrd.
  { intros name. unfold zin_read. by rewrite bool_decide_eq_true_2. }
  destruct fam; simpl; unfold sanitize_xlsx, sanitize_ods;
    rewrite andb_false_r; unfold open_read; rewrite Hin; cbv zeta.
  - rewrite (transcode_truncated _
               (fun name => rm && bool_decide (name = "xl/vbaProject.bin"))).
    + destruct (forallb _ zin); by rewrite insert_insert_eq.
    + intros zout item. unfold xlsx_item. cbv zeta.
      destruct (rm && _); [done|].
      rewrite Hrd. by destruct (rh && _).
  - rewrite (transcode_truncated _ (fun _ => false)).
    + destruct (forallb _ zin); by rewrite insert_insert_eq.
    + intros zout item. unfold ods_item. cbv zeta.
      rewrite Hrd. by destruct (rh && _).
Qed.

(** ** Failures that leave no trace *)

(** X8: when the input path does not exist, [main] exits with status 1 and
    leaves the file system as it was, for every extension and option
    setting; no destination file is created. *)
Theorem missing_input_rejected fs args now :
  fs !! input_file args = None →
  main fromstring tostring read_csv to_csv archive_bytes fs args now
  = (1%Z, fs).
Proof.
  intros Hnone.
  unfold main, sanitize_xlsx, sanitize_ods, sanitize_csv, open_read.
  rewrite Hnone.
  destruct (exists_path fs (output_file args) && negb (overwrite args));
    by repeat case_bool_decide.
Qed.

(** X9: when an input with extension .xlsx or .ods is not a ZIP archive,
    [main] exits with status 1 and leaves the file system as it was: the
    destination is not opened. *)
Theorem non_archive_input_rejected fam fs args now b :
  Path.lower (snd (Path.splitext (input_file args))) = extension fam →
  fs !! input_file args = Some (Raw b) →
  main fromstring tostring read_csv to_csv archive_bytes fs args now
  = (1%Z, fs).
Proof.
  intros Hext Hraw. rewrite (main_archive fam) by done.
  destruct fam; simpl; unfold sanitize_xlsx, sanitize_ods, open_read;
    rewrite Hraw;
    by destruct (exists_path fs (output_file args) && negb (overwrite args)).
Qed.

(** X10: when [pd.read_csv] raises on a .csv input (empty file, parser
    error or anything else), [main] exits with status 1 and leaves the file
    system as it was. *)
Theorem unreadable_csv_rejected fs args now f err :
  Path.lower (snd (Path.splitext (input_file args))) = ".csv" →
  fs !! input_file args = Some f →
  read_csv (input_file args) (file_bytes archive_bytes f) = Raise err →
  main fromstring tostring read_csv to_csv archive_bytes fs args now
  = (1%Z, fs).
Proof.
  intros Hext Hin Hread. unfold main. rewrite Hext.
  rewrite !bool_decide_eq_false_2 by done.
  rewrite bool_decide_eq_true_2 by done.
  unfold sanitize_csv. rewrite Hin, Hread.
  by destruct (exists_path fs (output_file args) && negb (overwrite args)).
Qed.

(** ** What a run can do to the file system *)

Lemma sanitize_shape fam fs input output rm rh ow now :
  sanitize fromstring tostring fam fs input output rm rh ow now = (false, fs)
  ∨ ∃ ok zout,
      sanitize fromstring tostring fam fs input output rm rh ow now
      = (ok, <[output := ZipArchive zout]> fs).
Proof.
  destruct fam; simpl; unfold sanitize_xlsx, sanitize_ods;
    destruct (exists_path fs output && negb ow); try by left.
  - destruct (open_read fs input) as [zin|]; [|by left]. cbv zeta.
    destruct (transcode _ (infolist zin) []) as [zout [err|]];
      right; eexists _, zout; by rewrite insert_insert_eq.
  - destruct (open_read fs input) as [zin|]; [|by left]. cbv zeta.
    destruct (transcode _ (infolist zin) []) as [zout [err|]];
      right; eexists _, zout; by rewrite insert_insert_eq.
Qed.

Lemma main_shape fs args now :
  main fromstring tostring read_csv to_csv archive_bytes fs args now
    = (1%Z, fs)
  ∨ ∃ code f,
      main fromstring tostring read_csv to_csv archive_bytes fs args now
        = (code, <[output_file args := f]> fs)
      ∧ (code = 0 ∨ code = 1)%Z.
Proof.
  unfold main. case_bool_decide as Hx.
  { destruct (sanitize_shape FamilyA fs (input_file args) (output_file args)
                (remove_macros args) (remove_hidden_sheets args)
                (overwrite args) now) as [Hs|(ok & zout & Hs)];
      simpl in Hs; rewrite Hs; [by left|].
    right. eexists _, _. split; [done|]. destruct ok; auto. }
  case_bool_decide as Ho.
  { destruct (sanitize_shape FamilyB fs (input_file args) (output_file args)
                (remove_macros args) (remove_hidden_sheets args)
                (overwrite args) now) as [Hs|(ok & zout & Hs)];
      simpl in Hs; rewrite Hs; [by left|].
    right. eexists _, _. split; [done|]. destruct ok; auto. }
  case_bool_decide as Hc; [|by left].
  unfold sanitize_csv.
  destruct (exists_path fs (output_file args) && negb (overwrite args));
    [by left|].
  destruct (fs !! input_file args) as [f|]; [|by left].
  destruct (read_csv (input_file args) (file_bytes archive_bytes f))
    as [df|]; [|by left].
  right. eexists _, _. split; [done|]. auto.
Qed.

(** X12: the exit status of [main] is 0 or 1, and status 0 is returned
    only when a file has been written at [output_file]. *)
Theorem success_writes_output fs args now code fs' :
  main fromstring tostring read_csv to_csv archive_bytes fs args now
    = (code, fs') →
  (code = 0 ∨ code = 1)%Z ∧ (code = 0%Z → is_Some (fs' !! output_file args)).
Proof.
  intros Hrun.
  destruct (main_shape fs args now) as [Hm|(code' & f & Hm & Hcode)];
    rewrite Hm in Hrun; simplify_eq.
  - split; [by right|done].
  - split; [done|]. intros _. rewrite lookup_insert_eq. by eexists.
Qed.

(** ** The tabular pipeline in general *)

(** X13: whenever the input parses and the destination may be written
    (the input path itself included, with [--overwrite]), [sanitize_csv]
    succeeds and writes a frame with the same columns whose rows are the
    source rows without a missing cell, in their original order, and
    nothing else. *)
Theorem csv_rows_filtered fs input output ow f df :
  fs !! input = Some f →
  writable fs output ow →
  read_csv input (file_bytes archive_bytes f) = Ok df →
  ∃ df',
    sanitize_csv read_csv to_csv archive_bytes fs input output ow
      = (true, <[output := Raw (to_csv output df')]> fs)
    ∧ Frame.columns df' = Frame.columns df
    ∧ Frame.rows df' `sublist_of` Frame.rows df
    ∧ (∀ row, row ∈ Frame.rows df' ↔
              row ∈ Frame.rows df ∧ Frame.complete row = true).
Proof.
  intros Hin Hw Hread. exists (Frame.dropna df). unfold sanitize_csv.
  rewrite (not_writable_false _ _ _ Hw), Hin, Hread.
  split; [done|]. split; [done|]. rewrite dropna_rows. split.
  - generalize (Frame.rows df). intros l.
    induction l as [|r l IH]; simpl; [constructor|].
    destruct (Frame.complete r); by constructor.
  - intros row. rewrite !list_elem_of_In. apply List.filter_In.
Qed.

Lemma filter_all {A} (p : A → bool) (l : list A) :
  (∀ x, x ∈ l → p x = true) → List.filter p l = l.
Proof.
  induction l as [|x l IH]; intros Hp; [done|].
  simpl. rewrite Hp by (by left).
  f_equal. apply IH. intros y Hy. apply Hp. by right.
Qed.

(** X14: a CSV input without any missing cell passes through with its
    frame unchanged: what is written is [to_csv] of what [read_csv]
    returned. *)
Theorem csv_complete_passthrough fs input output ow f df :
  fs !! input = Some f →
  writable fs output ow →
  read_csv input (file_bytes archive_bytes f) = Ok df →
  (∀ row, row ∈ Frame.rows df → Frame.complete row = true) →
  sanitize_csv read_csv to_csv archive_bytes fs input output ow
  = (true, <[output := Raw (to_csv output df)]> fs).
Proof.
  intros Hin Hw Hread Hall. unfold sanitize_csv.
  rewrite (not_writable_false _ _ _ Hw), Hin, Hread.
  assert (Frame.dropna df = df) as ->; [|done].
  destruct df as [cols rows]. unfold Frame.dropna. simpl in *.
  f_equal. by apply filter_all.
Qed.

(** ** How the input path selects the pipeline *)

Lemma list_ascii_of_string_app (s1 s2 : string) :
  String.list_ascii_of_string (s1 +:+ s2)
  = String.list_ascii_of_string s1 ++ String.list_ascii_of_string s2.
Proof. induction s1 as [|c s1 IH]; [done|]. simpl. by rewrite IH. Qed.

Lemma rfind_from_bounds c s i :
  (0 ≤ i)%Z →
  Path.rfind_from c s i = (-1)%Z
  ∨ (i ≤ Path.rfind_from c s i < i + Z.of_nat (length s))%Z.
Proof.
  revert i. induction s as [|x s IH]; intros i Hi; [by left|].
  cbn [Path.rfind_from length]. cbv zeta.
  destruct (IH (i + 1)%Z ltac:(lia)) as [Hr|Hr].
  - rewrite Hr. simpl. case_bool_decide; [right; lia|by left].
  - destruct (Z.leb_spec 0 (Path.rfind_from c s (i + 1))); [right|]; lia.
Qed.

Lemma rfind_from_absent c s i :
  c ∉ s → Path.rfind_from c s i = (-1)%Z.
Proof.
  revert i. induction s as [|x s IH]; intros i Hc; [done|].
  apply not_elem_of_cons in Hc as [Hne Hc].
  cbn [Path.rfind_from]. cbv zeta. rewrite (IH _ Hc). simpl.
  by rewrite bool_decide_eq_false_2.
Qed.

(** The last occurrence is found in the part before a suffix free of the
    character. *)
Lemma rfind_from_app_absent c s1 s2 i :
  (0 ≤ i)%Z → c ∉ s2 →
  Path.rfind_from c (s1 ++ s2) i = Path.rfind_from c s1 i.
Proof.
  revert i. induction s1 as [|x s1 IH]; intros i Hi Hc.
  - simpl. by apply rfind_from_absent.
  - cbn [app Path.rfind_from]. cbv zeta. by rewrite IH by (lia || done).
Qed.

Lemma rfind_from_last c s1 s2 i :
  (0 ≤ i)%Z → c ∉ s2 →
  Path.rfind_from c (s1 ++ c :: s2) i = (i + Z.of_nat (length s1))%Z.
Proof.
  revert i. induction s1 as [|x s1 IH]; intros i Hi Hc.
  - cbn [app Path.rfind_from length]. cbv zeta.
    rewrite (rfind_from_absent _ _ _ Hc). simpl.
    rewrite bool_decide_eq_true_2 by done. lia.
  - cbn [app Path.rfind_from length]. cbv zeta.
    rewrite IH by (lia || done).
    destruct (Z.leb_spec 0 (i + 1 + Z.of_nat (length s1))); lia.
Qed.

Lemma has_non_dot_snoc seg c :
  c ≠ "."%char → Path.has_non_dot (seg ++ [c]) = true.
Proof.
  intros Hc. induction seg as [|x seg IH]; simpl.
  - by rewrite bool_decide_eq_true_2.
  - by case_bool_decide.
Qed.

(** [splitext] cuts at the last dot when the character before it is
    neither a dot nor a separator and none follows it. *)
Lemma splitext_suffix (stem : string) (c : ascii) (e : string) :
  c ≠ "."%char → c ≠ "/"%char →
  "."%char ∉ String.list_ascii_of_string e →
  "/"%char ∉ String.list_ascii_of_string e →
  Path.splitext (stem +:+ String c (String "." e))
  = (stem +:+ String c "", String "." e).
Proof.
  intros Hdot Hsep Hed Hes. unfold Path.splitext. cbv zeta.
  rewrite list_ascii_of_string_app. cbn [String.list_ascii_of_string].
  set (s := String.list_ascii_of_string stem).
  set (t := String.list_ascii_of_string e).
  unfold Path.rfind.
  replace (s ++ c :: "."%char :: t) with ((s ++ [c]) ++ "."%char :: t)
    by (by rewrite <- app_assoc).
  rewrite (rfind_from_last "."%char (s ++ [c]) t 0) by (lia || done).
  assert (Path.rfind_from "/" ((s ++ [c]) ++ "."%char :: t) 0
          = Path.rfind_from "/" s 0) as ->.
  { rewrite rfind_from_app_absent; [|lia|].
    - rewrite rfind_from_app_absent; [done|lia|].
      apply not_elem_of_cons. split; [done|apply not_elem_of_nil].
    - apply not_elem_of_cons. split; [done|exact Hes]. }
  rewrite length_app. simpl length.
  pose proof (rfind_from_bounds "/" s 0 ltac:(lia)) as Hb.
  set (sep := Path.rfind_from "/" s 0) in *.
  destruct (Z.ltb_spec sep (0 + Z.of_nat (length s + 1))); [|lia].
  assert (Z.to_nat (sep + 1) ≤ length s)%nat as Hk by lia.
  replace (Z.to_nat (0 + Z.of_nat (length s + 1))) with (length (s ++ [c]))
    by (rewrite length_app; simpl; lia).
  rewrite take_app_length, drop_app_length.
  rewrite (drop_app_le (s ++ [c])) by (rewrite length_app; simpl; lia).
  rewrite take_app_length' by (rewrite length_drop; done).
  rewrite drop_app_le by done.
  rewrite has_non_dot_snoc by done.
  f_equal.
  - subst s. change [c] with (String.list_ascii_of_string (String c "")).
    rewrite <- list_ascii_of_string_app.
    apply String.string_of_list_ascii_of_string.
  - subst t. simpl. by rewrite String.string_of_list_ascii_of_string.
Qed.

Lemma lower_char_dot_sep c :
  (c = "."%char ∨ c = "/"%char) → Path.lower_char c = c.
Proof. by intros [-> | ->]. Qed.

Lemma lower_keeps_dot_sep (c : ascii) (e : string) :
  (c = "."%char ∨ c = "/"%char) →
  c ∈ String.list_ascii_of_string e →
  c ∈ String.list_ascii_of_string (Path.lower e).
Proof.
  intros Hc Hin. unfold Path.lower.
  rewrite String.list_ascii_of_string_of_list_ascii.
  rewrite <- (lower_char_dot_sep c Hc).
  by apply list_elem_of_fmap_2.
Qed.

(** X15: the pipeline is chosen by the text after the last dot of the
    input path, whatever its letter case: when the character before that
    dot is neither a dot nor a slash and the suffix spells .xlsx, .ods or
    .csv in any case, the extension [main] dispatches on is that suffix in
    lower case, whatever directories and dots come before. *)
Theorem extension_of_suffix (stem : string) (c : ascii) (e : string) :
  c ≠ "."%char → c ≠ "/"%char →
  Path.lower (String "." e) ∈ [".xlsx"; ".ods"; ".csv"] →
  Path.lower (snd (Path.splitext (stem +:+ String c (String "." e))))
  = Path.lower (String "." e).
Proof.
  intros Hdot Hsep Hext.
  rewrite splitext_suffix; [done|done|done|..].
  - intros Hin. apply (lower_keeps_dot_sep "."%char e) in Hin; [|by left].
    assert (Path.lower (String "." e) = String "." (Path.lower e)) as Hl
      by done.
    rewrite Hl in Hext.
    repeat (apply elem_of_cons in Hext as [Hext|Hext]);
      [..|by apply elem_of_nil in Hext];
      injection Hext as Hext; rewrite Hext in Hin;
      vm_compute in Hin;
      repeat (apply elem_of_cons in Hin as [Hin|Hin]; [done|]);
      by apply elem_of_nil in Hin.
  - intros Hin. apply (lower_keeps_dot_sep "/"%char e) in Hin; [|by right].
    assert (Path.lower (String "." e) = String "." (Path.lower e)) as Hl
      by done.
    rewrite Hl in Hext.
    repeat (apply elem_of_cons in Hext as [Hext|Hext]);
      [..|by apply elem_of_nil in Hext];
      injection Hext as Hext; rewrite Hext in Hin;
      vm_compute in Hin;
      repeat (apply elem_of_cons in Hin as [Hin|Hin]; [done|]);
      by apply elem_of_nil in Hin.
Qed.

(** ** Runs in sequence *)

Lemma flat_map_filter {A B} (f : A → list B) (p : A → bool) (l : list A) :
  flat_map f (List.filter p l)
  = flat_map (fun x => if p x then f x else []) l.
Proof.
  induction l as [|x l IH]; [done|].
  simpl. destruct (p x); simpl; by rewrite IH.
Qed.

Lemma flat_map_map {A B C} (f : B → list C) (g : A → B) (l : list A) :
  flat_map f (map g l) = flat_map (fun x => f (g x)) l.
Proof. induction l as [|x l IH]; [done|]. simpl. by rewrite IH. Qed.

Lemma copied_filter_unique_names (p : Entry → bool) (zin : Container) :
  unique_names zin → unique_names (map copied (List.filter p zin)).
Proof.
  unfold unique_names, namelist. rewrite map_map. simpl. intros Hu.
  eapply sublist_NoDup; [exact Hu|]. clear Hu.
  induction zin as [|e zin IH]; simpl; [constructor|].
  destruct (p e); simpl; by constructor.
Qed.

(** X17: removing macros in one run and hidden sheets in a second run on
    its output leaves the same archive as one run with both options, when
    the clock reads the same: the two options do not interfere. *)
Theorem options_in_two_runs fs input mid output ow1 ow2 now zin :
  fs !! input = Some (ZipArchive zin) →
  unique_names zin →
  input ≠ mid →
  mid ≠ output →
  input ≠ output →
  writable fs mid ow1 →
  writable fs output ow2 →
  ∃ z1 z2,
    sanitize_xlsx fromstring tostring fs input mid true false ow1 now
      = (true, <[mid := ZipArchive z1]> fs)
    ∧ sanitize_xlsx fromstring tostring (<[mid := ZipArchive z1]> fs)
                    mid output false true ow2 now
      = (true, <[output := ZipArchive z2]> (<[mid := ZipArchive z1]> fs))
    ∧ sanitize_xlsx fromstring tostring fs input output true true ow2 now
      = (true, <[output := ZipArchive z2]> fs).
Proof.
  intros Hin Hu Hne1 Hne2 Hne3 Hw1 Hw2.
  eexists _, _. split.
  { rewrite (sanitize_xlsx_runs _ _ _ _ _ _ _ zin) by done.
    by rewrite xlsx_output_macros_only. }
  split.
  { apply sanitize_xlsx_runs; [by rewrite lookup_insert_eq|done|].
    destruct Hw2 as [Hfree|Hov]; [left|by right].
    by rewrite lookup_insert_ne. }
  rewrite (sanitize_xlsx_runs _ _ _ _ _ _ _ zin) by done.
  do 3 f_equal.
  rewrite !xlsx_output_members
    by (done || by apply copied_filter_unique_names).
  rewrite flat_map_map, flat_map_filter.
  apply List.flat_map_ext. intros [i d]. unfold xlsx_emit, copied. simpl.
  case_bool_decide; [done|]. simpl.
  case_bool_decide; [done|]. by rewrite stored_stored.
Qed.

End Properties.

(** * The statements on the sample disk *)

Section Samples.
Import ET Zip Obs.
#[local] Existing Instance Fixture.byte_eq_dec.

Lemma lookup_document_snd b docs t :
  Fixture.lookup_document b docs = Ok t → t ∈ map snd docs.
Proof.
  induction docs as [|[b' t'] docs IH]; simpl; [done|].
  case_bool_decide; [intros [= ->]; by left|].
  intros H'. right. by apply IH.
Qed.

Lemma fixture_reparses : reparses Fixture.fromstring Fixture.tostring.
Proof.
  intros b t Hb%lookup_document_snd.
  unfold Fixture.documents in Hb. cbn [map snd] in Hb.
  repeat (apply elem_of_cons in Hb as [->|Hb]);
    [vm_compute; reflexivity ..|by apply elem_of_nil in Hb].
Qed.

Lemma book_unique_names workbook_xml :
  unique_names (Fixture.book workbook_xml).
Proof. apply (bool_decide_unpack _). vm_compute. exact I. Qed.

Lemma document_unique_names : unique_names Fixture.document.
Proof. apply (bool_decide_unpack _). vm_compute. exact I. Qed.

(** C1, on the sample workbook with one sheet marked [state='hidden']:
    the run with [remove_hidden_sheets] succeeds, but the pruning block
    raises AttributeError and the destination's [xl/workbook.xml] is the
    source's, byte for byte, the hidden sheet still in it. *)
Theorem hidden_sheet_not_removed :
  ∃ zout,
    sanitize_xlsx Fixture.fromstring Fixture.tostring Fixture.disk
                  "book.xlsx" "clean.xlsx" false true false Fixture.clock
      = (true, <["clean.xlsx" := ZipArchive zout]> Fixture.disk)
    ∧ read (Fixture.book Fixture.hidden_workbook_xml) "xl/workbook.xml"
      = Ok Fixture.hidden_workbook_xml
    ∧ Fixture.fromstring Fixture.hidden_workbook_xml
      = Ok Fixture.hidden_workbook
    ∧ Fixture.sheet "Secret" "2" (Some "hidden")
      ∈ findall_descendants Pruner.xlsx_ns "sheet" Fixture.hidden_workbook
    ∧ Pruner.prune_workbook Fixture.hidden_workbook = Raise AttributeError
    ∧ read zout "xl/workbook.xml" = Ok Fixture.hidden_workbook_xml.
Proof.
  eexists. split.
  { apply sanitize_xlsx_runs; [reflexivity|discriminate|by left]. }
  repeat split; try (vm_compute; reflexivity).
  apply list_elem_of_In. vm_compute. tauto.
Qed.

(** C6, on the sample content document with one table marked
    [table:display='false']: the run with [remove_hidden_sheets] succeeds,
    but the attribute lookup raises TypeError and the destination's
    [content.xml] is the source's, byte for byte, the hidden table still in
    it. *)
Theorem hidden_table_not_removed :
  ∃ zout,
    sanitize_ods Fixture.fromstring Fixture.tostring Fixture.disk
                 "doc.ods" "clean.ods" false true false Fixture.clock
      = (true, <["clean.ods" := ZipArchive zout]> Fixture.disk)
    ∧ read Fixture.document "content.xml" = Ok Fixture.hidden_content_xml
    ∧ Fixture.fromstring Fixture.hidden_content_xml
      = Ok Fixture.hidden_content
    ∧ Fixture.table "Hidden" (Some "false")
      ∈ findall_descendants Pruner.ods_table_ns "table" Fixture.hidden_content
    ∧ Pruner.prune_content Fixture.hidden_content = Raise TypeError
    ∧ read zout "content.xml" = Ok Fixture.hidden_content_xml.
Proof.
  eexists. split.
  { apply sanitize_ods_runs; [reflexivity|discriminate|by left]. }
  repeat split; try (vm_compute; reflexivity).
  apply list_elem_of_In. vm_compute. tauto.
Qed.

Lemma untouched_entries_preserved_witness :
  ∃ zout,
    sanitize Fixture.fromstring Fixture.tostring FamilyA Fixture.disk
             "book.xlsx" "clean.xlsx" true true false Fixture.clock
      = (true, <["clean.xlsx" := ZipArchive zout]> Fixture.disk)
    ∧ contents
        (List.filter (fun e => negb (trigger FamilyA (filename (info e))))
                     zout)
      = contents
          (List.filter (fun e => negb (trigger FamilyA (filename (info e))))
                       (Fixture.book Fixture.hidden_workbook_xml))
    ∧ ∀ e, e ∈ Fixture.book Fixture.hidden_workbook_xml →
           trigger FamilyA (filename (info e)) = false →
           read zout (filename (info e)) = Ok (data e).
Proof.
  apply (untouched_entries_preserved Fixture.fromstring Fixture.tostring
           FamilyA Fixture.disk "book.xlsx" "clean.xlsx" true true false
           Fixture.clock (Fixture.book Fixture.hidden_workbook_xml)).
  - reflexivity.
  - apply (bool_decide_unpack _). vm_compute. exact I.
  - discriminate.
  - left. reflexivity.
Defined.

Lemma roundtrip_options_disabled_witness :
  ∃ zx zo,
    sanitize_xlsx Fixture.fromstring Fixture.tostring FixtureMore.disk
                  "excel.xlsx" "copy.xlsx" false false false Fixture.clock
      = (true, <["copy.xlsx" := ZipArchive zx]> FixtureMore.disk)
    ∧ contents zx = contents FixtureMore.excel_book
    ∧ sanitize_ods Fixture.fromstring Fixture.tostring FixtureMore.disk
                   "excel.xlsx" "copy.xlsx" false false false Fixture.clock
      = (true, <["copy.xlsx" := ZipArchive zo]> FixtureMore.disk)
    ∧ contents zo = contents FixtureMore.excel_book.
Proof.
  apply (roundtrip_options_disabled Fixture.fromstring Fixture.tostring
           FixtureMore.disk "excel.xlsx" "copy.xlsx" false Fixture.clock
           FixtureMore.excel_book).
  - reflexivity.
  - apply (bool_decide_unpack _). vm_compute. exact I.
  - discriminate.
  - left. reflexivity.
Defined.

Lemma macro_entry_absent_witness :
  ∃ ok zout,
    sanitize_xlsx Fixture.fromstring Fixture.tostring Fixture.disk
                  "book.xlsx" "clean.xlsx" true false false Fixture.clock
      = (ok, <["clean.xlsx" := ZipArchive zout]> Fixture.disk)
    ∧ ("xl/vbaProject.bin" ∉ namelist zout)
    ∧ ("book.xlsx" ≠ "clean.xlsx" → ok = true).
Proof.
  apply (macro_entry_absent Fixture.fromstring Fixture.tostring Fixture.disk
           "book.xlsx" "clean.xlsx" false false Fixture.clock
           (Fixture.book Fixture.hidden_workbook_xml)).
  - reflexivity.
  - left. reflexivity.
Defined.


Lemma existing_output_refused_witness :
  main Fixture.fromstring Fixture.tostring
       Fixture.read_csv Fixture.to_csv Fixture.archive_bytes Fixture.disk
       {| input_file := "book.xlsx"; output_file := "plain.xlsx";
          remove_macros := true; remove_hidden_sheets := true;
          overwrite := false |}
       Fixture.clock
  = (1%Z, Fixture.disk).
Proof.
  apply (existing_output_refused Fixture.fromstring Fixture.tostring
           Fixture.read_csv Fixture.to_csv Fixture.archive_bytes).
  - vm_compute. eexists. reflexivity.
  - reflexivity.
Defined.

Lemma sanitize_twice_witness :
  ∃ z1 z2,
    sanitize Fixture.fromstring Fixture.tostring FamilyA Fixture.disk
             "plain.xlsx" "clean.xlsx" true true false Fixture.clock
      = (true, <["clean.xlsx" := ZipArchive z1]> Fixture.disk)
    ∧ sanitize Fixture.fromstring Fixture.tostring FamilyA
               (<["clean.xlsx" := ZipArchive z1]> Fixture.disk)
               "clean.xlsx" "again.xlsx" true true false Fixture.clock
      = (true, <["again.xlsx" := ZipArchive z2]>
                 (<["clean.xlsx" := ZipArchive z1]> Fixture.disk))
    ∧ contents z2 = contents z1
    ∧ (Fixture.clock = Fixture.clock → z2 = z1).
Proof.
  apply (sanitize_twice Fixture.fromstring Fixture.tostring FamilyA
           Fixture.disk "plain.xlsx" "clean.xlsx" "again.xlsx" true
           false false Fixture.clock Fixture.clock
           (Fixture.book Fixture.visible_workbook_xml)).
  - intros e _ _ t Ht. exact (fixture_reparses _ _ Ht).
  - reflexivity.
  - apply (bool_decide_unpack _). vm_compute. exact I.
  - discriminate.
  - discriminate.
  - left. reflexivity.
  - left. reflexivity.
Defined.

(** C8 as stated fails on a workbook whose text holds a carriage return:
    the first run writes it out raw, the second run reads it back as a
    line feed and writes different bytes. *)
Lemma sanitize_twice_carriage_return :
  ∃ z1 z2,
    sanitize FixtureMore.fromstring FixtureMore.tostring FamilyA
             FixtureMore.disk
             "cr.xlsx" "clean.xlsx" false true false Fixture.clock
      = (true, <["clean.xlsx" := ZipArchive z1]> FixtureMore.disk)
    ∧ sanitize FixtureMore.fromstring FixtureMore.tostring FamilyA
               (<["clean.xlsx" := ZipArchive z1]> FixtureMore.disk)
               "clean.xlsx" "again.xlsx" false true false Fixture.clock
      = (true, <["again.xlsx" := ZipArchive z2]>
                 (<["clean.xlsx" := ZipArchive z1]> FixtureMore.disk))
    ∧ read z1 "xl/workbook.xml" = Ok (FixtureMore.serialized FixtureMore.cr)
    ∧ read z2 "xl/workbook.xml" = Ok (FixtureMore.serialized FixtureMore.lf)
    ∧ contents z2 ≠ contents z1.
Proof.
  eexists _, _. split.
  { apply (sanitize_runs _ _ FamilyA); [reflexivity|discriminate|by left]. }
  split.
  { apply (sanitize_runs _ _ FamilyA);
      [by rewrite lookup_insert_eq|discriminate|by left]. }
  split; [vm_compute; reflexivity|].
  split; [vm_compute; reflexivity|].
  intros Heq. vm_compute in Heq. discriminate Heq.
Qed.



Lemma rewritten_entry_fresh_metadata_witness :
  ∃ zout,
    sanitize Fixture.fromstring Fixture.tostring FamilyA FixtureMore.disk
             "excel.xlsx" "clean.xlsx" false true false Fixture.clock
      = (true, <["clean.xlsx" := ZipArchive zout]> FixtureMore.disk)
    ∧ infolist zout
      = map (fun item =>
               if bool_decide (filename item = "xl/workbook.xml")
               then stored (fresh_info Fixture.clock "xl/workbook.xml")
               else stored item)
            (List.filter
               (fun item => negb (dropped FamilyA false (filename item)))
               (infolist FixtureMore.excel_book))
    ∧ date_time (stored (fresh_info Fixture.clock "xl/workbook.xml"))
      = dos_time Fixture.clock
    ∧ compress_type (stored (fresh_info Fixture.clock "xl/workbook.xml"))
      = ZIP_DEFLATED
    ∧ external_attr (stored (fresh_info Fixture.clock "xl/workbook.xml"))
      = Z.shiftl 384 16
    ∧ (∀ item, external_attr item = 0%Z →
               external_attr (stored item) = Z.shiftl 384 16)
    ∧ (∀ item, external_attr item ≠ 0%Z →
               dos_time (date_time item) = date_time item →
               stored item = item).
Proof.
  apply (rewritten_entry_fresh_metadata Fixture.fromstring Fixture.tostring
           FamilyA FixtureMore.disk "excel.xlsx" "clean.xlsx" false false
           Fixture.clock FixtureMore.excel_book).
  - reflexivity.
  - discriminate.
  - left. reflexivity.
Defined.

(** C10 as stated fails on a member whose [external_attr] is 0: it is
    copied with its bytes, but the [ZipInfo] found in the destination is not
    the source's. *)
Lemma copied_entry_attr_defaulted :
  ∃ zout e',
    sanitize_xlsx Fixture.fromstring Fixture.tostring FixtureMore.disk
                  "excel.xlsx" "clean.xlsx" false true false Fixture.clock
      = (true, <["clean.xlsx" := ZipArchive zout]> FixtureMore.disk)
    ∧ FixtureMore.excel_book !! 2%nat
      = Some (FixtureMore.plain_member "xl/worksheets/sheet1.xml"
                                       (Fixture.text "<worksheet/>"))
    ∧ zout !! 2%nat = Some e'
    ∧ data e' = Fixture.text "<worksheet/>"
    ∧ external_attr (info e') = Z.shiftl 384 16
    ∧ info e' ≠ info (FixtureMore.plain_member "xl/worksheets/sheet1.xml"
                                               (Fixture.text "<worksheet/>")).
Proof.
  eexists _, _. split.
  { apply sanitize_xlsx_runs; [reflexivity|discriminate|by left]. }
  split; [reflexivity|].
  split; [vm_compute; reflexivity|].
  split; [reflexivity|]. split; [reflexivity|].
  intros Heq. apply (f_equal external_attr) in Heq. vm_compute in Heq.
  discriminate Heq.
Qed.

(** Members sharing a name: [zin.read] resolves both to the last one, so
    with all options off the first member is written with the second
    member's bytes.  This is why the statements assume unique names. *)
Example duplicate_names_read_last :
  let zin := [Fixture.member "a.xml" (Fixture.text "first");
              Fixture.member "a.xml" (Fixture.text "second")] in
  xlsx_output Fixture.fromstring Fixture.tostring false false Fixture.clock zin
  = [Fixture.member "a.xml" (Fixture.text "second");
     Fixture.member "a.xml" (Fixture.text "second")].
Proof. vm_compute. reflexivity. Qed.

(** ** The further properties on the sample disk *)



Lemma output_member_names_witness :
  ∃ zout,
    sanitize Fixture.fromstring Fixture.tostring FamilyA Fixture.disk
             "book.xlsx" "clean.xlsx" true true false Fixture.clock
      = (true, <["clean.xlsx" := ZipArchive zout]> Fixture.disk)
    ∧ namelist zout
      = ["[Content_Types].xml"; "xl/workbook.xml"; "xl/worksheets/sheet1.xml"]
    ∧ (length zout ≤ 4)%nat.
Proof.
  apply (output_member_names Fixture.fromstring Fixture.tostring FamilyA
           Fixture.disk "book.xlsx" "clean.xlsx" true true false
           Fixture.clock (Fixture.book Fixture.hidden_workbook_xml)).
  - reflexivity.
  - discriminate.
  - left. reflexivity.
Defined.

Lemma macros_only_removed_witness :
  sanitize_xlsx Fixture.fromstring Fixture.tostring Fixture.disk
                "book.xlsx" "clean.xlsx" true false false Fixture.clock
  = (true,
     <["clean.xlsx" := ZipArchive
         (map copied
            (List.filter
               (fun e => negb (bool_decide
                                 (filename (info e) = "xl/vbaProject.bin")))
               (Fixture.book Fixture.hidden_workbook_xml)))]> Fixture.disk).
Proof.
  apply (macros_only_removed Fixture.fromstring Fixture.tostring
           Fixture.disk "book.xlsx" "clean.xlsx" false Fixture.clock
           (Fixture.book Fixture.hidden_workbook_xml)).
  - reflexivity.
  - apply (bool_decide_unpack _). vm_compute. exact I.
  - discriminate.
  - left. reflexivity.
Defined.

Lemma ods_remove_macros_no_effect_witness :
  sanitize_ods Fixture.fromstring Fixture.tostring Fixture.disk
               "doc.ods" "copy.ods" true false false Fixture.clock
  = (true,
     <["copy.ods" := ZipArchive (map copied Fixture.document)]> Fixture.disk)
  ∧ contents (map copied Fixture.document) = contents Fixture.document.
Proof.
  apply (ods_remove_macros_no_effect Fixture.fromstring Fixture.tostring
           Fixture.disk "doc.ods" "copy.ods" true false Fixture.clock
           Fixture.document).
  - reflexivity.
  - apply (bool_decide_unpack _). vm_compute. exact I.
  - discriminate.
  - left. reflexivity.
Defined.

Lemma nothing_to_sanitize_witness :
  sanitize Fixture.fromstring Fixture.tostring FamilyB FixtureMore.disk
           "excel.xlsx" "copy.ods" true true false Fixture.clock
  = (true,
     <["copy.ods" := ZipArchive (map copied FixtureMore.excel_book)]>
       FixtureMore.disk)
  ∧ contents (map copied FixtureMore.excel_book)
    = contents FixtureMore.excel_book.
Proof.
  apply (nothing_to_sanitize Fixture.fromstring Fixture.tostring FamilyB
           FixtureMore.disk "excel.xlsx" "copy.ods" true true false
           Fixture.clock FixtureMore.excel_book).
  - reflexivity.
  - apply (bool_decide_unpack _). vm_compute. exact I.
  - discriminate.
  - left. reflexivity.
  - intros e He. apply list_elem_of_In in He. simpl in He.
    destruct He as [<-|[<-|[<-|[]]]]; reflexivity.
Defined.

Lemma in_place_archive_run_witness :
  sanitize Fixture.fromstring Fixture.tostring FamilyA Fixture.disk
           "book.xlsx" "book.xlsx" true true true Fixture.clock
  = (false, <["book.xlsx" := ZipArchive []]> Fixture.disk).
Proof.
  apply (in_place_archive_run Fixture.fromstring Fixture.tostring FamilyA
           Fixture.disk "book.xlsx" true true Fixture.clock
           (Fixture.book Fixture.hidden_workbook_xml)).
  reflexivity.
Defined.

Lemma missing_input_rejected_witness :
  main Fixture.fromstring Fixture.tostring
       Fixture.read_csv Fixture.to_csv Fixture.archive_bytes Fixture.disk
       {| input_file := "absent.xlsx"; output_file := "clean.xlsx";
          remove_macros := true; remove_hidden_sheets := true;
          overwrite := true |}
       Fixture.clock
  = (1%Z, Fixture.disk).
Proof.
  apply (missing_input_rejected Fixture.fromstring Fixture.tostring
           Fixture.read_csv Fixture.to_csv Fixture.archive_bytes).
  reflexivity.
Defined.

Lemma non_archive_input_rejected_witness :
  main Fixture.fromstring Fixture.tostring
       Fixture.read_csv Fixture.to_csv Fixture.archive_bytes
       (<["data.xlsx" := Raw Fixture.csv_text]> Fixture.disk)
       {| input_file := "data.xlsx"; output_file := "clean.xlsx";
          remove_macros := false; remove_hidden_sheets := true;
          overwrite := false |}
       Fixture.clock
  = (1%Z, <["data.xlsx" := Raw Fixture.csv_text]> Fixture.disk).
Proof.
  apply (non_archive_input_rejected Fixture.fromstring Fixture.tostring
           Fixture.read_csv Fixture.to_csv Fixture.archive_bytes FamilyA
           (<["data.xlsx" := Raw Fixture.csv_text]> Fixture.disk)
           {| input_file := "data.xlsx"; output_file := "clean.xlsx";
              remove_macros := false; remove_hidden_sheets := true;
              overwrite := false |}
           Fixture.clock Fixture.csv_text).
  - vm_compute. reflexivity.
  - reflexivity.
Defined.

Lemma unreadable_csv_rejected_witness :
  main Fixture.fromstring Fixture.tostring
       Fixture.read_csv Fixture.to_csv Fixture.archive_bytes
       (<["empty.csv" := Raw []]> Fixture.disk)
       {| input_file := "empty.csv"; output_file := "clean.csv";
          remove_macros := false; remove_hidden_sheets := false;
          overwrite := false |}
       Fixture.clock
  = (1%Z, <["empty.csv" := Raw []]> Fixture.disk).
Proof.
  apply (unreadable_csv_rejected Fixture.fromstring Fixture.tostring
           Fixture.read_csv Fixture.to_csv Fixture.archive_bytes
           (<["empty.csv" := Raw []]> Fixture.disk)
           {| input_file := "empty.csv"; output_file := "clean.csv";
              remove_macros := false; remove_hidden_sheets := false;
              overwrite := false |}
           Fixture.clock (Raw []) ParserError).
  - vm_compute. reflexivity.
  - reflexivity.
  - vm_compute. reflexivity.
Defined.

Lemma success_writes_output_witness :
  (0 = 0 ∨ 0 = 1)%Z
  ∧ (0%Z = 0%Z →
     is_Some (<["clean.ods" := ZipArchive Fixture.document]> Fixture.disk
              !! "clean.ods")).
Proof.
  apply (success_writes_output Fixture.fromstring Fixture.tostring
           Fixture.read_csv Fixture.to_csv Fixture.archive_bytes
           Fixture.disk
           {| input_file := "doc.ods"; output_file := "clean.ods";
              remove_macros := false; remove_hidden_sheets := false;
              overwrite := false |}
           Fixture.clock 0%Z
           (<["clean.ods" := ZipArchive Fixture.document]> Fixture.disk)).
  vm_compute. reflexivity.
Defined.

Lemma csv_rows_filtered_witness :
  ∃ df',
    sanitize_csv Fixture.read_csv Fixture.to_csv Fixture.archive_bytes
                 Fixture.disk "data.csv" "data.csv" true
      = (true,
         <["data.csv" := Raw (Fixture.to_csv "data.csv" df')]> Fixture.disk)
    ∧ Frame.columns df' = ["id"; "name"; "score"]
    ∧ Frame.rows df' `sublist_of` Frame.rows Fixture.csv_frame
    ∧ (∀ row, row ∈ Frame.rows df' ↔
              row ∈ Frame.rows Fixture.csv_frame
              ∧ Frame.complete row = true).
Proof.
  apply (csv_rows_filtered Fixture.read_csv Fixture.to_csv
           Fixture.archive_bytes Fixture.disk "data.csv" "data.csv" true
           (Raw Fixture.csv_text) Fixture.csv_frame).
  - reflexivity.
  - right. reflexivity.
  - vm_compute. reflexivity.
Defined.

Lemma csv_complete_passthrough_witness :
  sanitize_csv FixtureCsv.read_csv Fixture.to_csv Fixture.archive_bytes
               (<["full.csv" := Raw FixtureCsv.complete_text]> Fixture.disk)
               "full.csv" "clean.csv" false
  = (true,
     <["clean.csv" :=
         Raw (Fixture.to_csv "clean.csv" FixtureCsv.complete_frame)]>
       (<["full.csv" := Raw FixtureCsv.complete_text]> Fixture.disk)).
Proof.
  apply (csv_complete_passthrough FixtureCsv.read_csv Fixture.to_csv
           Fixture.archive_bytes
           (<["full.csv" := Raw FixtureCsv.complete_text]> Fixture.disk)
           "full.csv" "clean.csv" false
           (Raw FixtureCsv.complete_text) FixtureCsv.complete_frame).
  - reflexivity.
  - left. reflexivity.
  - vm_compute. reflexivity.
  - intros row Hrow. apply list_elem_of_In in Hrow. simpl in Hrow.
    destruct Hrow as [<-|[<-|[]]]; reflexivity.
Defined.

Lemma extension_of_suffix_witness :
  Path.lower (snd (Path.splitext "reports/v1.2/book.XlsX")) = ".xlsx".
Proof.
  apply (extension_of_suffix "reports/v1.2/boo" "k"%char "XlsX").
  - discriminate.
  - discriminate.
  - left.
Defined.

Lemma options_in_two_runs_witness :
  ∃ z1 z2,
    sanitize_xlsx Fixture.fromstring Fixture.tostring Fixture.disk
                  "plain.xlsx" "nomacro.xlsx" true false false Fixture.clock
      = (true, <["nomacro.xlsx" := ZipArchive z1]> Fixture.disk)
    ∧ sanitize_xlsx Fixture.fromstring Fixture.tostring
                    (<["nomacro.xlsx" := ZipArchive z1]> Fixture.disk)
                    "nomacro.xlsx" "clean.xlsx" false true false Fixture.clock
      = (true, <["clean.xlsx" := ZipArchive z2]>
                 (<["nomacro.xlsx" := ZipArchive z1]> Fixture.disk))
    ∧ sanitize_xlsx Fixture.fromstring Fixture.tostring Fixture.disk
                    "plain.xlsx" "clean.xlsx" true true false Fixture.clock
      = (true, <["clean.xlsx" := ZipArchive z2]> Fixture.disk).
Proof.
  apply (options_in_two_runs Fixture.fromstring Fixture.tostring
           Fixture.disk "plain.xlsx" "nomacro.xlsx" "clean.xlsx" false false
           Fixture.clock (Fixture.book Fixture.visible_workbook_xml)).
  - reflexivity.
  - apply (bool_decide_unpack _). vm_compute. exact I.
  - discriminate.
  - discriminate.
  - discriminate.
  - left. reflexivity.
  - left. reflexivity.
Defined.

End Samples.
